(** * service.subtitles.rvm.addic7ed: [addic7ed/core.py]

    A shallow embedding of the plugin's core module (episode identity
    resolution, result presentation, download staging, action routing)
    and the properties its specification states about it.

    Conventions of the model:
    - Text is Rocq's [string]; every character stands for one code point
      below 256.  Python 3 semantics is followed ([str] is text,
      [bytes] is a separate type whose [format] rendering is its [repr]).
    - Calls to the host (Kodi), to the subtitle provider ([parser]) and
      to the staging directory are recorded in a trace, in program order.
      Logger calls only write to the host log and are left out.
    - Python exceptions are an explicit outcome threaded through a small
      state-and-error monad. *)

From Stdlib Require Import ZArith Lia Ascii String DecimalString.
From stdpp Require Import base gmap strings list fin_maps.

(** ** Python string and path primitives used by [core.py] *)

Module Py.

Definition code (c : ascii) : N := N_of_ascii c.

(** [str.lower()] on code points below 256: A-Z and the Latin-1
    capitals U+00C0..U+00DE (except the multiplication sign U+00D7). *)
Definition lower_char (c : ascii) : ascii :=
  let n := code c in
  if ((65 <=? n) && (n <=? 90) ||
      (192 <=? n) && (n <=? 222) && negb (n =? 215))%N
  then ascii_of_N (n + 32) else c.

Fixpoint lower (s : string) : string :=
  match s with
  | EmptyString => EmptyString
  | String c s' => String (lower_char c) (lower s')
  end.

(** [s.startswith(p)] *)
Fixpoint startswith (p s : string) : bool :=
  match p, s with
  | EmptyString, _ => true
  | String _ _, EmptyString => false
  | String a p', String b s' => if Ascii.eqb a b then startswith p' s' else false
  end.

(** [sub in s] for two strings: substring test. *)
Fixpoint contains (sub s : string) : bool :=
  startswith sub s ||
  match s with
  | EmptyString => false
  | String _ s' => contains sub s'
  end.

(** [str(n)] for an integer. *)
Definition str_of_int (n : Z) : string := NilEmpty.string_of_int (Z.to_int n).

Fixpoint zeros (n : nat) : string :=
  match n with
  | O => EmptyString
  | S k => String "0" (zeros k)
  end.

(** [s.zfill(width)]: zeros go after a leading sign. *)
Definition zfill (width : nat) (s : string) : string :=
  let n := String.length s in
  if (width <=? n)%nat then s
  else match s with
       | String c s' =>
           if Ascii.eqb c "+" || Ascii.eqb c "-"
           then String c (zeros (width - n) +:+ s')
           else zeros (width - n) +:+ s
       | EmptyString => zeros width
       end.

(** [s[:-3]] *)
Definition drop_last3 (s : string) : string :=
  String.substring 0 (String.length s - 3) s.

(** [s.rfind(c)], -1 when absent. *)
Fixpoint rfind_from (c : ascii) (s : string) (i : Z) : Z :=
  match s with
  | EmptyString => (-1)%Z
  | String a s' =>
      let r := rfind_from c s' (i + 1) in
      if (0 <=? r)%Z then r else if Ascii.eqb a c then i else (-1)%Z
  end.
Definition rfind (c : ascii) (s : string) : Z := rfind_from c s 0.

(** [s[i:]] and [s[:i]] for [0 <= i]. *)
Definition slice_from (i : Z) (s : string) : string :=
  String.substring (Z.to_nat i) (String.length s - Z.to_nat i) s.
Definition slice_to (i : Z) (s : string) : string :=
  String.substring 0 (Z.to_nat i) s.

(** [posixpath.basename] *)
Definition basename (p : string) : string := slice_from (rfind "/" p + 1) p.

(** The loop of [genericpath._splitext] that skips leading dots: is
    there a character other than '.' in [p[i : i + n]]? *)
Fixpoint has_non_dot (p : string) (i : nat) (n : nat) : bool :=
  match n with
  | O => false
  | S k =>
      match String.get i p with
      | Some c => if Ascii.eqb c "." then has_non_dot p (S i) k else true
      | None => true
      end
  end.

(** [posixpath.splitext] *)
Definition splitext (p : string) : string * string :=
  let sepIndex := rfind "/" p in
  let dotIndex := rfind "." p in
  if (sepIndex <? dotIndex)%Z
     && has_non_dot p (Z.to_nat (sepIndex + 1)) (Z.to_nat (dotIndex - (sepIndex + 1)))
  then (slice_to dotIndex p, slice_from dotIndex p)
  else (p, EmptyString).

Fixpoint endswith_char (c : ascii) (s : string) : bool :=
  match s with
  | EmptyString => false
  | String a EmptyString => Ascii.eqb a c
  | String _ s' => endswith_char c s'
  end.

(** [posixpath.join(a, b)] *)
Definition join (a b : string) : string :=
  if startswith "/" b then b
  else if String.eqb a EmptyString || endswith_char "/" a then a +:+ b
  else a +:+ "/" +:+ b.

(** [s.split(sep)] for a one-character separator. *)
Fixpoint split (sep : ascii) (s : string) : list string :=
  match s with
  | EmptyString => [EmptyString]
  | String c s' =>
      if Ascii.eqb c sep then EmptyString :: split sep s'
      else match split sep s' with
           | w :: ws => String c w :: ws
           | [] => [String c EmptyString]
           end
  end.

(** [s.encode('utf-8')] for code points below 256: the result is a
    byte string, one character per byte. *)
Fixpoint encode_utf8 (s : string) : string :=
  match s with
  | EmptyString => EmptyString
  | String c s' =>
      let n := code c in
      if (n <? 128)%N then String c (encode_utf8 s')
      else String (ascii_of_N (192 + n / 64))
             (String (ascii_of_N (128 + n mod 64)) (encode_utf8 s'))
  end.

Definition hex_digit (n : N) : ascii :=
  if (n <? 10)%N then ascii_of_N (48 + n) else ascii_of_N (87 + n).

Fixpoint has_char (c : ascii) (s : string) : bool :=
  match s with
  | EmptyString => false
  | String a s' => Ascii.eqb a c || has_char c s'
  end.

Definition backslash : ascii := ascii_of_N 92.
Definition dquote : ascii := ascii_of_N 34.

(** Body of [repr(b)] for a byte string, with quote character [q]. *)
Fixpoint repr_body (q : ascii) (b : string) : string :=
  match b with
  | EmptyString => EmptyString
  | String c b' =>
      let n := code c in
      let rest := repr_body q b' in
      if Ascii.eqb c q || Ascii.eqb c backslash then String backslash (String c rest)
      else if (n =? 9)%N then "\t" +:+ rest
      else if (n =? 10)%N then "\n" +:+ rest
      else if (n =? 13)%N then "\r" +:+ rest
      else if (n <? 32)%N || (127 <=? n)%N
           then String backslash (String "x" (String (hex_digit (n / 16))
                  (String (hex_digit (n mod 16)) rest)))
      else String c rest
  end.

(** [repr(b)] of a [bytes] object, which is what [str.format] inserts
    for a [bytes] argument: [b'...'], or [b"..."] when the bytes hold a
    single quote and no double quote. *)
Definition bytes_repr (b : string) : string :=
  let q : ascii := if has_char "'" b && negb (has_char dquote b) then dquote else "'"%char in
  String "b" (String q (repr_body q b +:+ String q EmptyString)).

End Py.


(** ** The release-tag pattern

    [release_re = re.compile(r'-(.*?)(?:\[.*?\])?\.')], searched with
    [release_re.search(filename)].  The matcher follows the backtracking
    order of Python's [re]: leftmost start, lazy [.*?] tried from the
    shortest length up, the optional bracket group tried before it is
    skipped.  [.] matches any character but a newline. *)

Module Re.

Definition newline : ascii := ascii_of_N 10.
Definition dot (c : ascii) : bool := negb (Ascii.eqb c newline).

(** After an opening '[': lazy [.*?], then ']', then '.'. *)
Fixpoint bracket_tail (s : string) : bool :=
  match s with
  | EmptyString => false
  | String c s' =>
      (Ascii.eqb c "]" && Py.startswith "." s') || (dot c && bracket_tail s')
  end.

(** [(?:\[.*?\])?\.] at the head of [s]. *)
Definition after_group (s : string) : bool :=
  match s with
  | String c s' =>
      (Ascii.eqb c "[" && bracket_tail s') || Ascii.eqb c "."
  | EmptyString => false
  end.

(** [(.*?)(?:\[.*?\])?\.] at the head of [s]: the text captured by
    group 1, shortest first. *)
Fixpoint lazy_group (s : string) : option string :=
  if after_group s then Some EmptyString
  else match s with
       | String c s' =>
           if dot c then String c <$> lazy_group s' else None
       | EmptyString => None
       end.

(** [release_re.search(s)]: [None] when there is no match, otherwise
    [group(1)] of the first match. *)
Fixpoint release_re_search (s : string) : option string :=
  match s with
  | EmptyString => None
  | String c s' =>
      if Ascii.eqb c "-"
      then match lazy_group s' with
           | Some g => Some g
           | None => release_re_search s'
           end
      else release_re_search s'
  end.

End Re.

(** ** Data model *)

Record EpisodeData := {
  showname : string;
  season : string;
  episode : string;
  filename : string
}.

(** Subtitle item supplied by the provider. *)
Module SubtitleItem.
Record t := { language : string; version : string; hi : bool; link : string }.
End SubtitleItem.

(** Candidate episode of an ambiguous search. *)
Module EpisodeItem.
Record t := { title : string; link : string }.
End EpisodeItem.

(** What [parser.search_episode] and [parser.get_episode] return: one
    episode page ([results.subtitles], [results.episode_url]) or a list
    of candidates ([isinstance(results, list)]). *)
Inductive SearchResult :=
| Episode (subtitles : list SubtitleItem.t) (episode_url : string)
| Candidates (results : list EpisodeItem.t).

(** The dictionary returned by [get_now_played()]. *)
Record NowPlayed := {
  np_file : string;
  np_showtitle : string;
  np_season : Z;
  np_episode : Z;
  np_label : string
}.

(** [xbmcgui.ListItem]: constructor arguments and the properties set
    afterwards, in the order they were set. *)
Record ListItem := {
  label : string;
  label2 : string;
  thumbnailImage : string;
  properties : list (string * string)
}.

Definition setProperty (key value : string) (li : ListItem) : ListItem :=
  {| label := label li; label2 := label2 li; thumbnailImage := thumbnailImage li;
     properties := properties li ++ [(key, value)] |}.

Definition getProperty (key : string) (li : ListItem) : option string :=
  foldl (fun found kv => if String.eqb (fst kv) key then Some (snd kv) else found)
        None (properties li).

(** Exceptions that can travel through [core.py]. *)
Inductive Exn :=
| ConnectionError
| DailyLimitError
| ParseError
| SubsSearchError
| KeyError (key : string)
| IndexError
| AttributeError
| OSError.

Inductive Outcome (A : Type) :=
| Return (a : A)
| Raise (e : Exn).
Arguments Return {A} a.
Arguments Raise {A} e.

(** VIDEOFILES *)
Definition VIDEOFILES : list string := [".avi"; ".mkv"; ".mp4"; ".ts"; ".m2ts"; ".mov"].

(** ** Collaborators

    Everything [core.py] imports and calls but does not define: the
    host's API, the standard library's URL functions, the add-on's
    settings and the modules [utils] and [parser]. *)
Class Collaborators := {
  Langs : Type;
  (** [sys.argv[0]], [int(sys.argv[1])] *)
  argv0 : string;
  handle : Z;
  (** [addon.profile], [addon.icon], [addon.get_ui_string], [addon.addon.getSetting] *)
  profile : string;
  icon : string;
  get_ui_string : Z -> string;
  getSetting : string -> string;
  (** [urlparse.parse_qsl], [unquote], [unquote_plus], [urlencode] *)
  parse_qsl : string -> list (string * string);
  unquote : string -> string;
  unquote_plus : string -> string;
  urlencode : list (string * string) -> string;
  (** [xbmc.convertLanguage(language, xbmc.ISO_639_1)] *)
  convertLanguage : string -> string;
  (** [utils.get_now_played], [utils.get_languages], [utils.normalize_showname] *)
  get_now_played : NowPlayed;
  get_languages : list string -> Langs;
  normalize_showname : string -> string;
  (** [utils.parse_filename]: [None] stands for [raise ParseError]. *)
  parse_filename : string -> option (string * string * string);
  (** [parser.search_episode], [parser.get_episode]: the provider's answer. *)
  search_episode : string -> Langs -> Outcome SearchResult;
  get_episode : string -> Langs -> Outcome SearchResult;
  (** The bytes [parser.download_subs] retrieves for a link and referer. *)
  fetch_subs : string -> string -> Outcome string;
  (** [dialog.select(heading, options)]: the index picked, negative on cancel. *)
  dialog_select : string -> list string -> Z;
  (** Display time, in milliseconds, the host uses for a notification
      called without [time] (Kodi documents 5000). *)
  notification_default_time : Z
}.

Section Core.
Context `{C : Collaborators}.

(** ** Observable calls, in program order *)
Inductive Event :=
(** [dialog.notification(heading, message, icon[, time[, sound]])] *)
| Notification (heading message icon_ : string) (time : option Z) (sound : option bool)
(** [dialog.select(heading, options)] *)
| Select (heading : string) (options : list string)
(** [xbmcplugin.addDirectoryItem(handle, url, listitem, isFolder)] *)
| AddDirectoryItem (h : Z) (url : string) (listitem : ListItem) (isFolder : bool)
(** [xbmcplugin.endOfDirectory(handle)] *)
| EndOfDirectory (h : Z)
(** [xbmcvfs.exists], [shutil.rmtree], [xbmcvfs.mkdirs] *)
| VfsExists (path : string)
| Rmtree (path : string)
| Mkdirs (path : string)
(** calls into [parser] *)
| SearchEpisode (query : string) (languages : Langs)
| GetEpisode (link : string) (languages : Langs)
| DownloadSubs (link referer path : string).

(** The world a run acts on: the calls made so far, the staging
    directory ([None] when it does not exist, otherwise its files with
    their contents, by path) and the files stored anywhere else. *)
Record World := {
  trace : list Event;
  staging : option (gmap string string);
  elsewhere : gmap string string
}.

(** State-and-exception monad of a Python call. *)
Definition M (A : Type) : Type := World -> Outcome A * World.

Definition ret {A} (a : A) : M A := fun w => (Return a, w).
Definition raise {A} (e : Exn) : M A := fun w => (Raise e, w).
Definition bind {A B} (m : M A) (k : A -> M B) : M B :=
  fun w => match m w with
           | (Return a, w') => k a w'
           | (Raise e, w') => (Raise e, w')
           end.

(** [try: body / except <the classes handled by h>: ... / else: k].
    The handler clauses do not cover the [else] block. *)
Definition try_except_else {A B} (body : M A) (h : Exn -> option (M B)) (k : A -> M B) : M B :=
  fun w => match body w with
           | (Return a, w') => k a w'
           | (Raise e, w') =>
               match h e with
               | Some handler => handler w'
               | None => (Raise e, w')
               end
           end.

(** [try: body / except ...: ...] *)
Definition try_except {A} (body : M A) (h : Exn -> option (M A)) : M A :=
  try_except_else body h ret.

Definition emit (ev : Event) : M unit :=
  fun w => (Return tt, {| trace := trace w ++ [ev]; staging := staging w;
                          elsewhere := elsewhere w |}).

End Core.

Declare Scope py_scope.
Delimit Scope py_scope with py.
Notation "x <- m ;; k" := (bind m (fun x => k))
  (at level 20, m at level 99, k at level 200, only parsing) : py_scope.
Notation "m ;; k" := (bind m (fun _ => k))
  (at level 100, k at level 200, only parsing, right associativity) : py_scope.
Open Scope py_scope.

Section Flows.
Context `{C : Collaborators}.

(** [d[key]] on a dictionary with string keys. *)
Definition getitem (d : gmap string string) (key : string) : M string :=
  match d !! key with
  | Some v => ret v
  | None => raise (KeyError key)
  end.

(** [dict(pairs)]: a later pair replaces an earlier one with the same key. *)
Definition dict (pairs : list (string * string)) : gmap string string :=
  foldl (fun d kv => <[fst kv := snd kv]> d) ∅ pairs.

(** [l[i]] for [0 <= i]. *)
Definition index {A} (l : list A) (i : Z) : M A :=
  match l !! Z.to_nat i with
  | Some x => ret x
  | None => raise IndexError
  end.

(** *** Host and provider calls *)

Definition notification (heading message icon_ : string)
    (time : option Z) (sound : option bool) : M unit :=
  emit (Notification heading message icon_ time sound).

Definition select (heading : string) (options : list string) : M Z :=
  emit (Select heading options) ;; ret (dialog_select heading options).

(** [temp = os.path.join(profile, 'temp')] *)
Definition temp : string := Py.join profile "temp".

(** [path] lies below directory [d]. *)
Definition below (d path : string) : bool := Py.startswith (d +:+ "/") path.

(** Modelled from the spec: the host virtual filesystem ("existence
    check, recursive remove, recursive create for the temporary
    staging directory"); [xbmcvfs] and [shutil] are not part of the
    repository.  The three calls are only ever made on [temp]. *)

(** [xbmcvfs.exists(temp)] *)
Definition vfs_exists_temp : M bool :=
  fun w => (Return (bool_decide (is_Some (staging w))),
            {| trace := trace w ++ [VfsExists temp]; staging := staging w;
               elsewhere := elsewhere w |}).

(** [shutil.rmtree(temp)] *)
Definition rmtree_temp : M unit :=
  fun w =>
    match staging w with
    | Some _ => (Return tt,
                 {| trace := trace w ++ [Rmtree temp]; staging := None;
                    elsewhere := elsewhere w |})
    | None => (Raise OSError,
               {| trace := trace w ++ [Rmtree temp]; staging := None;
                  elsewhere := elsewhere w |})
    end.

(** [xbmcvfs.mkdirs(temp)] *)
Definition mkdirs_temp : M bool :=
  fun w => (Return true,
            {| trace := trace w ++ [Mkdirs temp];
               staging := Some (default ∅ (staging w));
               elsewhere := elsewhere w |}).

(** Storing [bytes] at [path]. *)
Definition write_file (path bytes : string) : M unit :=
  fun w =>
    if below temp path
    then match staging w with
         | Some dir => (Return tt,
                        {| trace := trace w; staging := Some (<[path := bytes]> dir);
                           elsewhere := elsewhere w |})
         | None => (Raise OSError, w)
         end
    else (Return tt,
          {| trace := trace w; staging := staging w;
             elsewhere := <[path := bytes]> (elsewhere w) |}).

Definition parser_search_episode (query : string) (languages : Langs) : M SearchResult :=
  emit (SearchEpisode query languages) ;;
  match search_episode query languages with
  | Return r => ret r
  | Raise e => raise e
  end.

Definition parser_get_episode (link : string) (languages : Langs) : M SearchResult :=
  emit (GetEpisode link languages) ;;
  match get_episode link languages with
  | Return r => ret r
  | Raise e => raise e
  end.

(** Modelled from the spec: [parser.download_subs(link, referrer,
    destination_path)], which is not in the source tree, "fetches
    subtitle file bytes" and stores them at the destination path, or
    signals connection failure or daily-limit exhaustion and stores
    nothing. *)
Definition parser_download_subs (link referer path : string) : M unit :=
  emit (DownloadSubs link referer path) ;;
  match fetch_subs link referer with
  | Return bytes => write_file path bytes
  | Raise e => raise e
  end.

(** *** [core.py] *)

(** The list item built by one iteration of the loop of [display_subs]. *)
Definition subs_list_item (filename : string) (item : SubtitleItem.t) : ListItem :=
  let list_item :=
    {| label := SubtitleItem.language item;
       label2 := SubtitleItem.version item;
       thumbnailImage := convertLanguage (SubtitleItem.language item);
       properties := [] |} in
  let list_item :=
    if SubtitleItem.hi item then setProperty "hearing_imp" "true" list_item
    else list_item in
  let release_match := Re.release_re_search filename in
  match release_match with
  | Some group1 =>
      if Py.contains (Py.lower group1) (Py.lower (SubtitleItem.version item))
      then setProperty "sync" "true" list_item
      else list_item
  | None => list_item
  end.

Definition subs_url (episode_url filename : string) (item : SubtitleItem.t) : string :=
  argv0 +:+ "?" +:+
  urlencode [("action", "download"); ("link", SubtitleItem.link item);
             ("ref", episode_url); ("filename", filename)].

Fixpoint display_subs (subs_list : list SubtitleItem.t)
    (episode_url filename : string) : M unit :=
  match subs_list with
  | [] => ret tt
  | item :: rest =>
      emit (AddDirectoryItem handle (subs_url episode_url filename item)
              (subs_list_item filename item) false) ;;
      display_subs rest episode_url filename
  end.

(** [filename[:-3] + 'srt'] *)
Definition subs_name (filename : string) : string :=
  Py.drop_last3 filename +:+ "srt".

Definition download_subs (link referrer filename : string) : M unit :=
  exists_ <- vfs_exists_temp ;;
  (if exists_ then rmtree_temp else ret tt) ;;
  mkdirs_temp ;;
  let subspath := Py.join temp (subs_name filename) in
  try_except_else (parser_download_subs link referrer subspath)
    (fun e =>
       match e with
       | ConnectionError =>
           Some (notification (get_ui_string 32002) (get_ui_string 32005) "error" None None)
       | DailyLimitError =>
           Some (notification (get_ui_string 32002) (get_ui_string 32003) "error"
                   (Some 3000%Z) None)
       | _ => None
       end)
    (fun _ =>
       let list_item := {| label := subspath; label2 := EmptyString;
                           thumbnailImage := EmptyString; properties := [] |} in
       emit (AddDirectoryItem handle subspath list_item false) ;;
       notification (get_ui_string 32000) (get_ui_string 32001) icon
         (Some 3000%Z) (Some false)).

Definition parse (text : string) : M (string * string * string) :=
  match parse_filename text with
  | Some r => ret r
  | None => raise ParseError
  end.

Definition only (cls : Exn) {A} (handler : M A) (e : Exn) : option (M A) :=
  match cls, e with
  | ParseError, ParseError => Some handler
  | ConnectionError, ConnectionError => Some handler
  | SubsSearchError, SubsSearchError => Some handler
  | DailyLimitError, DailyLimitError => Some handler
  | _, _ => None
  end.

Definition extract_episode_data : M EpisodeData :=
  let now_played := get_now_played in
  let filename := Py.basename (unquote (np_file now_played)) in
  r <- (if String.eqb (getSetting "use_filename") "true"
           || String.eqb (np_showtitle now_played) EmptyString
        then
          try_except
            (p <- parse filename ;; ret (p, filename))
            (only ParseError
               (let filename := np_label now_played in
                try_except
                  (p <- parse filename ;; ret (p, filename))
                  (only ParseError
                     (notification (get_ui_string 32002) (get_ui_string 32006)
                        "error" (Some 3000%Z) None ;;
                      raise ParseError))))
        else
          let showname := np_showtitle now_played in
          let season := Py.zfill 2 (Py.str_of_int (np_season now_played)) in
          let episode := Py.zfill 2 (Py.str_of_int (np_episode now_played)) in
          (* ['{0}.{1}x{2}.foo'.format(showname.encode('utf-8'), season, episode)]:
             the first argument is a [bytes] object, which [format]
             renders through [repr]. *)
          let filename :=
            if negb (bool_decide (Py.lower (snd (Py.splitext filename)) ∈ VIDEOFILES))
            then Py.bytes_repr (Py.encode_utf8 showname) +:+ "." +:+ season
                   +:+ "x" +:+ episode +:+ ".foo"
            else filename in
          ret ((showname, season, episode), filename)) ;;
  let '((showname, season, episode), filename) := r in
  ret {| showname := showname; season := season; episode := episode;
         filename := filename |}.

(** The query string of [search_subs]. *)
Definition search_query (params : gmap string string) (episode_data : EpisodeData) : M string :=
  action <- getitem params "action" ;;
  if String.eqb action "search"
  then ret (normalize_showname (showname episode_data) +:+ " " +:+
            season episode_data +:+ "x" +:+ episode episode_data)
  else getitem params "searchstring".

(** The [else] block of the provider call in [search_subs]; [None]
    stands for its [return] statements. *)
Definition pick_episode (results : SearchResult) (languages : Langs) : M (option SearchResult) :=
  match results with
  | Candidates l =>
      i <- select (get_ui_string 32008) (EpisodeItem.title <$> l) ;;
      if (0 <=? i)%Z
      then
        try_except
          (item <- index l i ;;
           results <- parser_get_episode (EpisodeItem.link item) languages ;;
           ret (Some results))
          (fun e =>
             match e with
             | ConnectionError =>
                 Some (notification (get_ui_string 32002) (get_ui_string 32005)
                         "error" None None ;;
                       ret None)
             | SubsSearchError => Some (ret None)
             | _ => None
             end)
      else ret None
  | Episode _ _ => ret (Some results)
  end.

(** [display_subs(results.subtitles, results.episode_url, filename)] *)
Definition display_results (results : SearchResult) (filename : string) : M unit :=
  match results with
  | Episode subtitles episode_url => display_subs subtitles episode_url filename
  | Candidates _ => raise AttributeError
  end.

Definition search_subs (params : gmap string string) : M unit :=
  languages_param <- getitem params "languages" ;;
  let languages := get_languages (Py.split "," (unquote_plus languages_param)) in
  try_except_else extract_episode_data
    (only ParseError (ret tt))
    (fun episode_data =>
       query <- search_query params episode_data ;;
       if negb (String.eqb query EmptyString)
       then
         try_except_else (parser_search_episode query languages)
           (fun e =>
              match e with
              | ConnectionError =>
                  Some (notification (get_ui_string 32002) (get_ui_string 32005)
                          "error" None None)
              | SubsSearchError => Some (ret tt)
              | _ => None
              end)
           (fun results =>
              picked <- pick_episode results languages ;;
              match picked with
              | Some results => display_results results (filename episode_data)
              | None => ret tt
              end)
       else ret tt).

Definition router (paramstring : string) : M unit :=
  let params := dict (parse_qsl paramstring) in
  action <- getitem params "action" ;;
  (if String.eqb action "search" || String.eqb action "manualsearch"
   then search_subs params
   else if String.eqb action "download"
   then
     link <- getitem params "link" ;;
     ref <- getitem params "ref" ;;
     filename <- getitem params "filename" ;;
     download_subs link ref (unquote_plus filename)
   else ret tt) ;;
  emit (EndOfDirectory handle).

End Flows.

(** ** Observations on a run *)

Section Observations.
Context `{C : Collaborators}.

(** The world with further calls appended to its trace. *)
Definition log (evs : list Event) (w : World) : World :=
  {| trace := trace w ++ evs; staging := staging w; elsewhere := elsewhere w |}.

(** The calls a run started in [w] has added. *)
Definition new_events {A} (w : World) (r : Outcome A * World) : list Event :=
  drop (length (trace w)) (trace (snd r)).

Definition is_end (ev : Event) : bool :=
  match ev with EndOfDirectory _ => true | _ => false end.
Definition is_entry (ev : Event) : bool :=
  match ev with AddDirectoryItem _ _ _ _ => true | _ => false end.
Definition is_notification (ev : Event) : bool :=
  match ev with Notification _ _ _ _ _ => true | _ => false end.
Definition is_select (ev : Event) : bool :=
  match ev with Select _ _ => true | _ => false end.
Definition is_provider_call (ev : Event) : bool :=
  match ev with
  | SearchEpisode _ _ | GetEpisode _ _ | DownloadSubs _ _ _ => true
  | _ => false
  end.

Definition only_events (p : Event -> bool) (evs : list Event) : list Event :=
  List.filter p evs.
Definition count_events (p : Event -> bool) (evs : list Event) : nat :=
  length (only_events p evs).

(** How long a notification stays on screen. *)
Definition display_time (ev : Event) : option Z :=
  match ev with
  | Notification _ _ _ (Some t) _ => Some t
  | Notification _ _ _ None _ => Some notification_default_time
  | _ => None
  end.

(** The 'sync' marker of a presented entry. *)
Definition has_sync (li : ListItem) : bool :=
  bool_decide (getProperty "sync" li = Some "true").

(** The entry [display_subs] adds for one subtitle. *)
Definition subs_entry (episode_url filename : string) (item : SubtitleItem.t) : Event :=
  AddDirectoryItem handle (subs_url episode_url filename item)
    (subs_list_item filename item) false.

(** The entry and the notifications of [download_subs]. *)
Definition staged_entry (subspath : string) : Event :=
  AddDirectoryItem handle subspath
    {| label := subspath; label2 := EmptyString; thumbnailImage := EmptyString;
       properties := [] |} false.
Definition connectivity_notification : Event :=
  Notification (get_ui_string 32002) (get_ui_string 32005) "error" None None.
Definition daily_limit_notification : Event :=
  Notification (get_ui_string 32002) (get_ui_string 32003) "error" (Some 3000%Z) None.
Definition success_notification : Event :=
  Notification (get_ui_string 32000) (get_ui_string 32001) icon (Some 3000%Z) (Some false).
Definition identity_notification : Event :=
  Notification (get_ui_string 32002) (get_ui_string 32006) "error" (Some 3000%Z) None.

(** The calls [download_subs] makes before it asks for the bytes. *)
Definition staging_prelude (w : World) : list Event :=
  VfsExists temp :: (if staging w is Some _ then [Rmtree temp] else []) ++ [Mkdirs temp].

(** Every call a computation adds to the trace satisfies [P]. *)
Definition emits {A} (P : Event -> Prop) (m : M A) : Prop :=
  ∀ w, ∃ evs, trace (snd (m w)) = trace w ++ evs ∧ Forall P evs.

(** [os.path.basename(urlparse.unquote(now_played['file']))] *)
Definition base_filename : string := Py.basename (unquote (np_file get_now_played)).

(** The test that sends [extract_episode_data] to the file name:
    the 'use_filename' setting is on or there is no library title. *)
Definition prefers_filename : Prop :=
  getSetting "use_filename" = "true" ∨ np_showtitle get_now_played = EmptyString.

(** The languages [search_subs] hands to the provider. *)
Definition requested_languages (languages_param : string) : Langs :=
  get_languages (Py.split "," (unquote_plus languages_param)).

(** The path [download_subs] stages the subtitles at. *)
Definition staging_path (filename_ : string) : string :=
  Py.join temp (subs_name filename_).

(** The world when [download_subs] is about to ask for the bytes: the
    staging directory is there and empty. *)
Definition prepared (link referrer subspath : string) (w : World) : World :=
  {| trace := trace w ++ staging_prelude w ++ [DownloadSubs link referrer subspath];
     staging := Some ∅;
     elsewhere := elsewhere w |}.

(** The world once [bytes] are stored at [path]. *)
Definition stored (path bytes : string) (w : World) : World :=
  if below temp path
  then {| trace := trace w; staging := <[path := bytes]> <$> staging w;
          elsewhere := elsewhere w |}
  else {| trace := trace w; staging := staging w;
          elsewhere := <[path := bytes]> (elsewhere w) |}.

(** The branch of [router] taken for an action. *)
Definition dispatched (params : gmap string string) (action : string) : M unit :=
  if String.eqb action "search" || String.eqb action "manualsearch"
  then search_subs params
  else if String.eqb action "download"
  then
    link <- getitem params "link" ;;
    ref <- getitem params "ref" ;;
    filename <- getitem params "filename" ;;
    download_subs link ref (unquote_plus filename)
  else ret tt.

Definition not_end (ev : Event) : Prop := is_end ev = false.

(** *** Conditions on the collaborators *)

(** The decoded parameters hold 'action' and the keys its flow reads. *)
Definition well_formed (params : gmap string string) : Prop :=
  ∃ action, params !! "action" = Some action ∧
    (action = "search" → is_Some (params !! "languages")) ∧
    (action = "manualsearch" →
       is_Some (params !! "languages") ∧ is_Some (params !! "searchstring")) ∧
    (action = "download" →
       is_Some (params !! "link") ∧ is_Some (params !! "ref") ∧
       is_Some (params !! "filename")).

(** The provider signals only the failures the calling flow has a
    handler for, and [get_episode] answers with one episode page. *)
Definition provider_failures_handled : Prop :=
  (∀ query languages e, search_episode query languages = Raise e →
     e = ConnectionError ∨ e = SubsSearchError) ∧
  (∀ link languages e, get_episode link languages = Raise e →
     e = ConnectionError ∨ e = SubsSearchError) ∧
  (∀ link languages l, get_episode link languages ≠ Return (Candidates l)) ∧
  (∀ link referer e, fetch_subs link referer = Raise e →
     e = ConnectionError ∨ e = DailyLimitError).

(** The selection dialog answers with a position of the list or a
    negative number. *)
Definition select_in_range : Prop :=
  ∀ heading options, (dialog_select heading options < Z.of_nat (length options))%Z.

End Observations.

(** ** The specification's wording, for comparison *)

Module Spec.

(** "the text between the last '-' and the first '.' or '['" *)
Fixpoint until_dot_or_bracket (s : string) : string :=
  match s with
  | EmptyString => EmptyString
  | String c s' =>
      if Ascii.eqb c "." || Ascii.eqb c "[" then EmptyString
      else String c (until_dot_or_bracket s')
  end.
Definition release_tag (filename : string) : string :=
  let i := Py.rfind "-" filename in
  if (i <? 0)%Z then EmptyString
  else until_dot_or_bracket (Py.slice_from (i + 1) filename).

(** "is non-empty and appears case-insensitively as a substring of
    the subtitle's version description" *)
Definition sync_expected (filename : string) (item : SubtitleItem.t) : bool :=
  negb (String.eqb (release_tag filename) EmptyString) &&
  Py.contains (Py.lower (release_tag filename)) (Py.lower (SubtitleItem.version item)).

(** "<showname>.<season>x<episode>.foo" *)
Definition placeholder (showname season episode : string) : string :=
  showname +:+ "." +:+ season +:+ "x" +:+ episode +:+ ".foo".

(** "<original-basename>.srt (extension-replaced)" *)
Definition subs_name (filename : string) : string :=
  fst (Py.splitext filename) +:+ ".srt".

End Spec.

(** ** Declarative reading of [release_re] *)

Module ReSpec.

(** Text that [.*?] can match. *)
Definition no_newline (s : string) : Prop := Py.has_char Re.newline s = false.

(** What [(?:\[.*?\])?] can match: nothing, or a bracketed text. *)
Inductive bracket_group : string -> Prop :=
| bracket_absent : bracket_group EmptyString
| bracket_present x : no_newline x -> bracket_group ("[" +:+ x +:+ "]").

(** [release_re] matches in [s] right after [pre], capturing [g]. *)
Definition release_match (s pre g : string) : Prop :=
  ∃ br rest, s = pre +:+ "-" +:+ g +:+ br +:+ "." +:+ rest
             ∧ no_newline g ∧ bracket_group br.

(** The match [search] reports: the leftmost start and, there, the
    shortest capture. *)
Definition first_release_match (s g : string) : Prop :=
  ∃ pre, release_match s pre g ∧
    ∀ pre' g', release_match s pre' g' →
      String.length pre < String.length pre' ∨
      (String.length pre = String.length pre' ∧ String.length g ≤ String.length g').

End ReSpec.

(** ** Test doubles *)

Module Double.

(** A query-string decoder for plain text without escapes: fields are
    separated by '&', name and value by '=', blank values are dropped. *)
Definition plain_qsl (qs : string) : list (string * string) :=
  omap (fun field =>
          match Py.split "=" field with
          | [k; v] => if String.eqb v EmptyString then None else Some (k, v)
          | _ => None
          end)
       (Py.split "&" qs).

Definition plain_urlencode (query : list (string * string)) : string :=
  foldr (fun kv rest => fst kv +:+ "=" +:+ snd kv +:+ "&" +:+ rest) EmptyString query.

(** A file-name parser that knows two texts. *)
Definition parse_known (text : string) : option (string * string * string) :=
  if String.eqb text "Show.S01E02.HDTV-LOL.mkv" then Some ("Show", "01", "02")
  else if String.eqb text "Show 1x02-LOL." then Some ("Show", "01", "02")
  else None.

(** A host and provider with fixed answers. *)
Definition host (now_played : NowPlayed) (use_filename : string)
    (found picked : Outcome SearchResult) (fetched : Outcome string)
    (choice : Z) : Collaborators :=
  {| Langs := list string;
     argv0 := "plugin://service.subtitles.rvm.addic7ed/";
     handle := 1;
     profile := "/profile";
     icon := "icon.png";
     get_ui_string := Py.str_of_int;
     getSetting := fun key => if String.eqb key "use_filename" then use_filename
                              else EmptyString;
     parse_qsl := plain_qsl;
     unquote := id;
     unquote_plus := id;
     urlencode := plain_urlencode;
     convertLanguage := fun language => String.substring 0 2 (Py.lower language);
     get_now_played := now_played;
     get_languages := id;
     normalize_showname := id;
     parse_filename := parse_known;
     search_episode := fun _ _ => found;
     get_episode := fun _ _ => picked;
     fetch_subs := fun _ _ => fetched;
     dialog_select := fun _ options =>
                        if (choice <? Z.of_nat (length options))%Z then choice
                        else (-1)%Z;
     notification_default_time := 5000 |}.

Definition from_file : NowPlayed :=
  {| np_file := "/media/tv/Show.S01E02.HDTV-LOL.mkv"; np_showtitle := EmptyString;
     np_season := (-1); np_episode := (-1); np_label := "Show.S01E02.HDTV-LOL.mkv" |}.
Definition from_label : NowPlayed :=
  {| np_file := "http://host/stream?id=7"; np_showtitle := EmptyString;
     np_season := (-1); np_episode := (-1); np_label := "Show 1x02-LOL." |}.
Definition unknown : NowPlayed :=
  {| np_file := "/media/clip.mkv"; np_showtitle := EmptyString;
     np_season := (-1); np_episode := (-1); np_label := "clip" |}.
Definition from_library : NowPlayed :=
  {| np_file := "/media/tv/stream.strm"; np_showtitle := "Show";
     np_season := 3; np_episode := 7; np_label := "Pilot" |}.
Definition from_library_accented : NowPlayed :=
  {| np_file := "/media/tv/stream.strm";
     np_showtitle := "Caf" +:+ String (ascii_of_N 233) EmptyString;
     np_season := 3; np_episode := 7; np_label := "Pilot" |}.

Definition subs : list SubtitleItem.t :=
  [ {| SubtitleItem.language := "English"; SubtitleItem.version := "HDTV.x264-LOL";
       SubtitleItem.hi := false; SubtitleItem.link := "/original/1/0" |};
    {| SubtitleItem.language := "French"; SubtitleItem.version := "WEB-DL";
       SubtitleItem.hi := true; SubtitleItem.link := "/original/1/1" |} ].
Definition page : SearchResult := Episode subs "http://www.addic7ed.com/serie/Show/1/2/x".
Definition candidate_items : list EpisodeItem.t :=
  [ {| EpisodeItem.title := "Show - 01x02"; EpisodeItem.link := "/serie/Show/1/2/x" |};
    {| EpisodeItem.title := "Show (US) - 01x02"; EpisodeItem.link := "/serie/Show_US/1/2/y" |} ].
Definition candidates : SearchResult := Candidates candidate_items.

(** The played file parses and the provider finds its episode. *)
Definition found : Collaborators :=
  host from_file "false" (Return page) (Return page) (Return "1") 0.
(** Nothing parses. *)
Definition unidentified : Collaborators :=
  host unknown "false" (Return page) (Return page) (Return "1") 0.
(** Only the display label parses. *)
Definition labelled : Collaborators :=
  host from_label "false" (Return page) (Return page) (Return "1") 0.
(** The provider offers candidates and the user cancels the dialog. *)
Definition cancelled : Collaborators :=
  host from_file "false" (Return candidates) (Return page) (Return "1") (-1).
(** The provider offers candidates and the user picks the second. *)
Definition chosen : Collaborators :=
  host from_file "false" (Return candidates) (Return page) (Return "1") 1.
(** A library item played from a stream file. *)
Definition library : Collaborators :=
  host from_library "false" (Return page) (Return page) (Return "1") 0.
Definition library_accented : Collaborators :=
  host from_library_accented "false" (Return page) (Return page) (Return "1") 0.
(** The provider's failures. *)
Definition offline : Collaborators :=
  host from_file "false" (Raise ConnectionError) (Raise ConnectionError)
    (Raise ConnectionError) 0.
Definition limit_reached : Collaborators :=
  host from_file "false" (Raise DailyLimitError) (Raise DailyLimitError)
    (Raise DailyLimitError) 0.
Definition nothing_found : Collaborators :=
  host from_file "false" (Raise SubsSearchError) (Raise SubsSearchError)
    (Raise SubsSearchError) 0.

Definition empty_world `{C : Collaborators} : World :=
  {| trace := []; staging := None; elsewhere := ∅ |}.

End Double.

(** ** Further observations *)

(** Reading a decimal text back as a number. *)
Definition read_int (s : string) : option Z := Z.of_int <$> NilEmpty.int_of_string s.

Section Protocol.
Context `{C : Collaborators}.

(** The parameters [display_subs] encodes into the link of an entry. *)
Definition download_query (episode_url filename_ : string) (item : SubtitleItem.t)
    : list (string * string) :=
  [("action", "download"); ("link", SubtitleItem.link item);
   ("ref", episode_url); ("filename", filename_)].

(** The 'hearing_imp' marker of a presented entry. *)
Definition has_hearing_imp (li : ListItem) : bool :=
  bool_decide (getProperty "hearing_imp" li = Some "true").

Definition is_vfs_call (ev : Event) : bool :=
  match ev with VfsExists _ | Rmtree _ | Mkdirs _ => true | _ => false end.
Definition is_search_call (ev : Event) : bool :=
  match ev with SearchEpisode _ _ => true | _ => false end.
Definition is_get_call (ev : Event) : bool :=
  match ev with GetEpisode _ _ => true | _ => false end.
Definition is_download_call (ev : Event) : bool :=
  match ev with DownloadSubs _ _ _ => true | _ => false end.
Definition is_folder_entry (ev : Event) : bool :=
  match ev with AddDirectoryItem _ _ _ isFolder => isFolder | _ => false end.

(** How often each kind of call occurs in a list of events: search
    requests, episode requests, dialogs, notifications, calls on the
    staging directory, download requests, ends of listing. *)
Definition tally (evs : list Event) : nat * nat * nat * nat * nat * nat * nat :=
  (count_events is_search_call evs, count_events is_get_call evs,
   count_events is_select evs, count_events is_notification evs,
   count_events is_vfs_call evs, count_events is_download_call evs,
   count_events is_end evs).

(** What the search flow can add to the trace, in order.  After the
    re-query for a chosen candidate: *)
Inductive after_get (filename_ : string) : list Event -> Prop :=
| get_silent : after_get filename_ []
| get_offline : after_get filename_ [connectivity_notification]
| get_presented subtitles episode_url :
    after_get filename_ (subs_entry episode_url filename_ <$> subtitles).

(** after the selection dialog: *)
Inductive after_select (filename_ : string) : list Event -> Prop :=
| select_ends : after_select filename_ []
| select_requery link languages tail :
    after_get filename_ tail ->
    after_select filename_ (GetEpisode link languages :: tail).

(** after the search request: *)
Inductive after_search (filename_ : string) : list Event -> Prop :=
| search_silent : after_search filename_ []
| search_offline : after_search filename_ [connectivity_notification]
| search_presented subtitles episode_url :
    after_search filename_ (subs_entry episode_url filename_ <$> subtitles)
| search_ambiguous heading options tail :
    after_select filename_ tail ->
    after_search filename_ (Select heading options :: tail).

(** the whole flow: *)
Inductive search_trace : list Event -> Prop :=
| trace_nothing : search_trace []
| trace_unidentified : search_trace [identity_notification]
| trace_searched ed query languages tail :
    after_search (filename ed) tail ->
    search_trace (SearchEpisode query languages :: tail).

End Protocol.

(** Further test doubles. *)
Module Scenario.

(** A library episode played from a video file with an upper-case
    extension. *)
Definition library_video : NowPlayed :=
  {| np_file := "/media/tv/Show/Show.3x07.MKV"; np_showtitle := "Show";
     np_season := 3; np_episode := 7; np_label := "Pilot" |}.
Definition from_library_video : Collaborators :=
  Double.host library_video "false" (Return Double.page) (Return Double.page)
    (Return "1") 0.

(** The provider finds nothing for the chosen candidate. *)
Definition chosen_without_subs : Collaborators :=
  Double.host Double.from_file "false" (Return Double.candidates)
    (Raise SubsSearchError) (Return "1") 1.

Definition english : SubtitleItem.t :=
  {| SubtitleItem.language := "English"; SubtitleItem.version := "HDTV.x264-LOL";
     SubtitleItem.hi := false; SubtitleItem.link := "/original/1/0" |}.

End Scenario.

(** * Proofs *)

(** ** Sanity checks of the primitives *)

Example lower_example : Py.lower "HDTV.x264-LOL" = "hdtv.x264-lol".
Proof. reflexivity. Qed.

Example zfill_example :
  (fun n => Py.zfill 2 (Py.str_of_int n)) <$> [3; 12; 0; -1; 123]%Z
  = ["03"; "12"; "00"; "-1"; "123"].
Proof. reflexivity. Qed.

Example splitext_example :
  Py.splitext <$> ["c.d.mkv"; ".bashrc"; "a.b/c"; "..x.y"; "abc."]
  = [("c.d", ".mkv"); (".bashrc", EmptyString); ("a.b/c", EmptyString);
     ("..x", ".y"); ("abc", ".")].
Proof. reflexivity. Qed.

Example basename_example :
  Py.basename <$> ["/a/b/c.mkv"; "c.mkv"; "a/"] = ["c.mkv"; "c.mkv"; EmptyString].
Proof. reflexivity. Qed.

Example join_example :
  Py.join "/p" "temp" = "/p/temp" ∧ Py.join "/p/" "temp" = "/p/temp"
  ∧ Py.join "/p" "/x" = "/x".
Proof. repeat split; reflexivity. Qed.

Example bytes_repr_example :
  Py.bytes_repr (Py.encode_utf8 "Show") = "b'Show'"
  ∧ Py.bytes_repr (Py.encode_utf8 ("Caf" +:+ String (ascii_of_N 233) EmptyString))
    = "b'Caf\xc3\xa9'".
Proof. split; reflexivity. Qed.

Example release_re_examples :
  Re.release_re_search <$>
    ["Show.S01E02.720p.HDTV.x264-DIMENSION.mkv"; "Spider-Man.S01E01.HDTV-LOL.mkv";
     "a-b[c].mkv"; "a-b[c]d.mkv"; "x-.mkv"; "x-y"; "x.y-z"]
  = [Some "DIMENSION"; Some "Man"; Some "b"; Some "b[c]d"; Some EmptyString; None; None].
Proof. reflexivity. Qed.

Example plain_qsl_example :
  Double.plain_qsl "action=search&languages=English,French&empty="
  = [("action", "search"); ("languages", "English,French")].
Proof. reflexivity. Qed.

(** ** Strings *)

Section StringFacts.

Lemma str_app_cons c s t : String c s +:+ t = String c (s +:+ t).
Proof. reflexivity. Qed.

Lemma str_app_empty_l s : EmptyString +:+ s = s.
Proof. reflexivity. Qed.

Lemma str_app_empty_r s : s +:+ EmptyString = s.
Proof. induction s as [|c s IH]; [reflexivity|]. rewrite str_app_cons. by f_equal. Qed.

Lemma str_app_assoc s t u : (s +:+ t) +:+ u = s +:+ t +:+ u.
Proof. induction s as [|c s IH]; [reflexivity|]. rewrite !str_app_cons. by f_equal. Qed.

Lemma str_length_app s t : String.length (s +:+ t) = String.length s + String.length t.
Proof. induction s as [|c s IH]; [reflexivity|]. rewrite str_app_cons. simpl. by f_equal. Qed.

End StringFacts.

(** ** The monad *)

Ltac unfold_m :=
  unfold bind, ret, raise, emit, try_except, try_except_else, only,
    notification, select, parse, index, getitem in *.

Section MonadFacts.
Context `{C : Collaborators}.

Lemma log_nil (w : World) : log [] w = w.
Proof. destruct w. unfold log. simpl. by rewrite app_nil_r. Qed.

Lemma log_log evs1 evs2 (w : World) : log evs2 (log evs1 w) = log (evs1 ++ evs2) w.
Proof. unfold log. simpl. by rewrite app_assoc. Qed.

Lemma emit_log ev (w : World) : emit ev w = (Return tt, log [ev] w).
Proof. reflexivity. Qed.

Lemma new_events_log {A} (o : Outcome A) evs (w : World) :
  new_events w (o, log evs w) = evs.
Proof. unfold new_events, log. simpl. by rewrite drop_app_length. Qed.

Lemma new_events_same {A} (o : Outcome A) (w : World) : new_events w (o, w) = [].
Proof. unfold new_events. simpl. by rewrite drop_all. Qed.

Lemma new_events_app {A} (r : Outcome A * World) evs (w : World) :
  trace (snd r) = trace w ++ evs → new_events w r = evs.
Proof. intros H. unfold new_events. rewrite H. by rewrite drop_app_length. Qed.

Lemma display_subs_run subs_list episode_url filename_ (w : World) :
  display_subs subs_list episode_url filename_ w
  = (Return tt, log (subs_entry episode_url filename_ <$> subs_list) w).
Proof.
  revert w. induction subs_list as [|item rest IH]; intros w.
  - simpl. unfold ret. by rewrite log_nil.
  - simpl. unfold bind. rewrite emit_log, IH, log_log. reflexivity.
Qed.

Lemma getitem_some (params : gmap string string) key v (w : World) :
  params !! key = Some v → getitem params key w = (Return v, w).
Proof. intros H. unfold getitem. by rewrite H. Qed.

Lemma getitem_none (params : gmap string string) key (w : World) :
  params !! key = None → getitem params key w = (Raise (KeyError key), w).
Proof. intros H. unfold getitem. by rewrite H. Qed.

End MonadFacts.

Section Identity.
Context `{C : Collaborators}.

Lemma prefers_filename_test :
  prefers_filename →
  String.eqb (getSetting "use_filename") "true"
    || String.eqb (np_showtitle get_now_played) EmptyString = true.
Proof.
  intros [H|H]; rewrite H; [reflexivity|]. rewrite String.eqb_refl. apply orb_true_r.
Qed.

Lemma extract_from_filename (w : World) sh se ep :
  prefers_filename →
  parse_filename base_filename = Some (sh, se, ep) →
  extract_episode_data w
  = (Return {| showname := sh; season := se; episode := ep; filename := base_filename |}, w).
Proof.
  intros Hp H. unfold extract_episode_data.
  rewrite (prefers_filename_test Hp). fold base_filename.
  unfold_m. rewrite H. reflexivity.
Qed.

Lemma extract_from_label (w : World) sh se ep :
  prefers_filename →
  parse_filename base_filename = None →
  parse_filename (np_label get_now_played) = Some (sh, se, ep) →
  extract_episode_data w
  = (Return {| showname := sh; season := se; episode := ep;
               filename := np_label get_now_played |}, w).
Proof.
  intros Hp H1 H2. unfold extract_episode_data.
  rewrite (prefers_filename_test Hp). fold base_filename.
  unfold_m. rewrite H1, H2. reflexivity.
Qed.

Lemma extract_fails (w : World) :
  prefers_filename →
  parse_filename base_filename = None →
  parse_filename (np_label get_now_played) = None →
  extract_episode_data w = (Raise ParseError, log [identity_notification] w).
Proof.
  intros Hp H1 H2. unfold extract_episode_data.
  rewrite (prefers_filename_test Hp). fold base_filename.
  unfold_m. rewrite H1, H2. reflexivity.
Qed.

End Identity.

(** ** The search flow *)

Section Search.
Context `{C : Collaborators}.

Lemma extract_keeps_world (w w1 : World) ed :
  extract_episode_data w = (Return ed, w1) → w1 = w.
Proof.
  unfold extract_episode_data. unfold_m.
  destruct (String.eqb _ _ || String.eqb _ _).
  - destruct (parse_filename _) as [[[??]?]|]; [by inversion 1|].
    destruct (parse_filename _) as [[[??]?]|]; [by inversion 1|].
    discriminate.
  - by inversion 1.
Qed.

Lemma search_query_pure params ed (w : World) :
  snd (search_query params ed w) = w.
Proof.
  unfold search_query. unfold_m.
  destruct (params !! "action") as [a|]; simpl; [|done].
  destruct (String.eqb a "search"); simpl; [done|].
  by destruct (params !! "searchstring").
Qed.

Lemma search_subs_resolved params languages_param (w w1 : World) ed query :
  params !! "languages" = Some languages_param →
  extract_episode_data w = (Return ed, w1) →
  fst (search_query params ed w1) = Return query →
  search_subs params w
  = if negb (String.eqb query EmptyString)
    then try_except_else
           (parser_search_episode query (requested_languages languages_param))
           (fun e =>
              match e with
              | ConnectionError => Some (notification (get_ui_string 32002)
                                           (get_ui_string 32005) "error" None None)
              | SubsSearchError => Some (ret tt)
              | _ => None
              end)
           (fun results =>
              picked <- pick_episode results (requested_languages languages_param) ;;
              match picked with
              | Some results => display_results results (filename ed)
              | None => ret tt
              end) w1
    else (Return tt, w1).
Proof.
  intros Hl He Hq. unfold search_subs.
  unfold bind at 1. rewrite (getitem_some _ _ _ _ Hl).
  unfold try_except_else at 1. rewrite He.
  unfold bind at 1.
  pose proof (search_query_pure params ed w1) as Hp.
  destruct (search_query params ed w1) as [o w2]. simpl in Hq, Hp. subst.
  by destruct (negb _).
Qed.

End Search.

Section SearchOutcomes.
Context `{C : Collaborators}.

Lemma parser_search_episode_run query languages (w : World) :
  parser_search_episode query languages w
  = (search_episode query languages, log [SearchEpisode query languages] w).
Proof.
  unfold parser_search_episode, bind. rewrite emit_log.
  by destruct (search_episode query languages).
Qed.

Lemma parser_get_episode_run link_ languages (w : World) :
  parser_get_episode link_ languages w
  = (get_episode link_ languages, log [GetEpisode link_ languages] w).
Proof.
  unfold parser_get_episode, bind. rewrite emit_log.
  by destruct (get_episode link_ languages).
Qed.

(** A single episode page goes straight to the presenter. *)
Lemma search_subs_single params languages_param (w w1 : World) ed query
    subtitles episode_url :
  params !! "languages" = Some languages_param →
  extract_episode_data w = (Return ed, w1) →
  fst (search_query params ed w1) = Return query →
  query ≠ EmptyString →
  search_episode query (requested_languages languages_param)
    = Return (Episode subtitles episode_url) →
  search_subs params w
  = (Return tt,
     log (SearchEpisode query (requested_languages languages_param)
            :: (subs_entry episode_url (filename ed) <$> subtitles)) w1).
Proof.
  intros Hl He Hq Hne Hs.
  rewrite (search_subs_resolved _ _ _ _ _ _ Hl He Hq).
  apply String.eqb_neq in Hne. rewrite Hne. simpl.
  unfold try_except_else. rewrite parser_search_episode_run, Hs.
  unfold bind. simpl. unfold ret.
  rewrite display_subs_run, log_log. reflexivity.
Qed.

(** Several candidates: the selection dialog comes right after the
    provider call. *)
Lemma search_subs_candidates params languages_param (w w1 : World) ed query l :
  params !! "languages" = Some languages_param →
  extract_episode_data w = (Return ed, w1) →
  fst (search_query params ed w1) = Return query →
  query ≠ EmptyString →
  search_episode query (requested_languages languages_param) = Return (Candidates l) →
  let languages := requested_languages languages_param in
  let heading := get_ui_string 32008 in
  let titles := EpisodeItem.title <$> l in
  let i := dialog_select heading titles in
  let w2 := log [SearchEpisode query languages; Select heading titles] w1 in
  search_subs params w
  = if (0 <=? i)%Z
    then match l !! Z.to_nat i with
         | None => (Raise IndexError, w2)
         | Some item =>
             let w3 := log [GetEpisode (EpisodeItem.link item) languages] w2 in
             match get_episode (EpisodeItem.link item) languages with
             | Return (Episode subtitles episode_url) =>
                 (Return tt, log (subs_entry episode_url (filename ed) <$> subtitles) w3)
             | Return (Candidates _) => (Raise AttributeError, w3)
             | Raise ConnectionError => (Return tt, log [connectivity_notification] w3)
             | Raise SubsSearchError => (Return tt, w3)
             | Raise e => (Raise e, w3)
             end
         end
    else (Return tt, w2).
Proof.
  intros Hl He Hq Hne Hs languages heading titles i w2.
  rewrite (search_subs_resolved _ _ _ _ _ _ Hl He Hq).
  apply String.eqb_neq in Hne. rewrite Hne. simpl.
  unfold try_except_else at 1. rewrite parser_search_episode_run, Hs.
  unfold bind at 1. unfold pick_episode.
  unfold bind at 1. unfold select. unfold bind at 1. rewrite emit_log, log_log. simpl.
  unfold ret at 1. fold languages heading titles i w2.
  destruct (0 <=? i)%Z; [|reflexivity].
  unfold try_except, try_except_else, bind, index.
  destruct (l !! Z.to_nat i) as [item|]; [|reflexivity].
  unfold ret at 1. rewrite parser_get_episode_run.
  destruct (get_episode _ _) as [[subtitles episode_url|l']|e]; simpl.
  - unfold ret. by rewrite display_subs_run.
  - reflexivity.
  - destruct e; try reflexivity.
Qed.

End SearchOutcomes.

(** ** Claims on identity resolution and on the search flow *)

Section SearchClaims.
Context `{C : Collaborators}.

Lemma count_select_entries episode_url filename_ (l : list SubtitleItem.t) :
  count_events is_select (subs_entry episode_url filename_ <$> l) = 0.
Proof. induction l as [|item l IH]; [reflexivity|exact IH]. Qed.

Lemma search_subs_no_languages params (w : World) :
  params !! "languages" = None →
  search_subs params w = (Raise (KeyError "languages"), w).
Proof. intros Hl. unfold search_subs, bind. by rewrite (getitem_none _ _ _ Hl). Qed.

Lemma search_subs_no_identity params (w : World) :
  prefers_filename →
  parse_filename base_filename = None →
  parse_filename (np_label get_now_played) = None →
  search_subs params w
  = match params !! "languages" with
    | Some _ => (Return tt, log [identity_notification] w)
    | None => (Raise (KeyError "languages"), w)
    end.
Proof.
  intros Hp H1 H2. unfold search_subs. unfold bind at 1. unfold getitem.
  destruct (params !! "languages") as [l|]; [|reflexivity].
  unfold ret at 1. unfold try_except_else.
  rewrite (extract_fails w Hp H1 H2). reflexivity.
Qed.

(** C6: when the 'prefer filename' setting is on or the library show
    title is empty, identity resolution returns the parse of the base
    file name if that parse succeeds; otherwise the parse of the host's
    display label if that one succeeds; otherwise it notifies the user
    and raises the identity-resolution error, and the search flow then
    ends without any call to the provider. *)
Theorem C6_filename_then_label_then_error (w : World) :
  prefers_filename →
  (∀ sh se ep, parse_filename base_filename = Some (sh, se, ep) →
     extract_episode_data w
     = (Return {| showname := sh; season := se; episode := ep;
                  filename := base_filename |}, w))
  ∧ (parse_filename base_filename = None →
     ∀ sh se ep, parse_filename (np_label get_now_played) = Some (sh, se, ep) →
       extract_episode_data w
       = (Return {| showname := sh; season := se; episode := ep;
                    filename := np_label get_now_played |}, w))
  ∧ (parse_filename base_filename = None →
     parse_filename (np_label get_now_played) = None →
     extract_episode_data w = (Raise ParseError, log [identity_notification] w)
     ∧ ∀ params,
         count_events is_provider_call (new_events w (search_subs params w)) = 0
         ∧ (is_Some (params !! "languages") →
            search_subs params w = (Return tt, log [identity_notification] w))).
Proof.
  intros Hp. split; [|split].
  - intros sh se ep H. by apply extract_from_filename.
  - intros H1 sh se ep H2. by apply extract_from_label.
  - intros H1 H2. split; [by apply extract_fails|].
    intros params. rewrite (search_subs_no_identity params w Hp H1 H2).
    destruct (params !! "languages") as [l|].
    + split; [by rewrite new_events_log | done].
    + split; [|by intros [? ?]].
      by rewrite new_events_same.
Qed.

(** C7: when the provider answers a search with a single episode, its
    subtitles are presented and no selection dialog is shown; when it
    answers with a list of candidates, the selection dialog is the
    first thing after the provider call, and when the user cancels it
    (negative index) the flow ends there: nothing is presented, the
    provider is not called again, nobody is notified. *)
Theorem C7_single_is_presented_candidates_are_selected
    params languages_param (w w1 : World) ed query :
  params !! "languages" = Some languages_param →
  extract_episode_data w = (Return ed, w1) →
  fst (search_query params ed w1) = Return query →
  query ≠ EmptyString →
  let languages := requested_languages languages_param in
  (∀ subtitles episode_url,
     search_episode query languages = Return (Episode subtitles episode_url) →
     search_subs params w
     = (Return tt,
        log (SearchEpisode query languages
               :: (subs_entry episode_url (filename ed) <$> subtitles)) w1)
     ∧ count_events is_select (new_events w1 (search_subs params w)) = 0)
  ∧ (∀ l, search_episode query languages = Return (Candidates l) →
     let ask := Select (get_ui_string 32008) (EpisodeItem.title <$> l) in
     (∃ rest, new_events w1 (search_subs params w)
              = SearchEpisode query languages :: ask :: rest)
     ∧ ((dialog_select (get_ui_string 32008) (EpisodeItem.title <$> l) < 0)%Z →
        search_subs params w
        = (Return tt, log [SearchEpisode query languages; ask] w1))).
Proof.
  intros Hl He Hq Hne languages. split.
  - intros subtitles episode_url Hs.
    rewrite (search_subs_single _ _ _ _ _ _ _ _ Hl He Hq Hne Hs).
    split; [reflexivity|]. rewrite new_events_log.
    apply count_select_entries.
  - intros l Hs ask.
    pose proof (search_subs_candidates _ _ _ _ _ _ _ Hl He Hq Hne Hs) as Hrun.
    simpl in Hrun. fold languages ask in Hrun. split.
    + rewrite Hrun.
      destruct (0 <=? _)%Z; [|by eexists; rewrite new_events_log].
      destruct (l !! _) as [item|]; [|by eexists; rewrite new_events_log].
      destruct (get_episode _ _) as [[subtitles episode_url|l']|e].
      * eexists. rewrite !log_log. rewrite new_events_log. reflexivity.
      * eexists. rewrite !log_log. rewrite new_events_log. reflexivity.
      * destruct e; eexists; rewrite !log_log; rewrite new_events_log; reflexivity.
    + intros Hneg. rewrite Hrun.
      destruct (Z.leb_spec 0 (dialog_select (get_ui_string 32008) (EpisodeItem.title <$> l)));
        [lia|reflexivity].
Qed.

(** C9: in a search flow whose query string comes out empty (which
    takes a manual search with an empty typed string), the provider is
    not called and no entry is added: the flow returns at once. *)
Theorem C9_empty_query_skips_provider params (w w1 : World) ed :
  extract_episode_data w = (Return ed, w1) →
  fst (search_query params ed w1) = Return EmptyString →
  count_events is_provider_call (new_events w (search_subs params w)) = 0
  ∧ count_events is_entry (new_events w (search_subs params w)) = 0
  ∧ (is_Some (params !! "languages") → search_subs params w = (Return tt, w)).
Proof.
  intros He Hq. pose proof (extract_keeps_world _ _ _ He) as ->.
  destruct (params !! "languages") as [l|] eqn:Hl.
  - rewrite (search_subs_resolved _ _ _ _ _ _ Hl He Hq). simpl.
    rewrite new_events_same. done.
  - rewrite (search_subs_no_languages _ _ Hl), new_events_same.
    split; [done|]. split; [done|]. by intros [? ?].
Qed.

(** The query of an automatic search is never empty. *)
Lemma search_action_query_nonempty params ed (w : World) :
  params !! "action" = Some "search" →
  fst (search_query params ed w) ≠ Return EmptyString.
Proof.
  intros Ha. unfold search_query, bind. rewrite (getitem_some _ _ _ _ Ha). simpl.
  unfold ret. simpl. intros [= H].
  apply (f_equal String.length) in H. rewrite !str_length_app in H. simpl in H. lia.
Qed.

(** C10: when the parse of the file name fails and the parse of the
    display label succeeds, the resolved [filename] is the label, not
    the base name of the played file; the presenter then computes the
    'sync' marker from the label and puts the label into every download
    link. *)
Theorem C10_label_becomes_filename (w : World) sh se ep :
  prefers_filename →
  parse_filename base_filename = None →
  parse_filename (np_label get_now_played) = Some (sh, se, ep) →
  let ed := {| showname := sh; season := se; episode := ep;
               filename := np_label get_now_played |} in
  extract_episode_data w = (Return ed, w)
  ∧ ∀ params languages_param query subtitles episode_url,
      params !! "languages" = Some languages_param →
      fst (search_query params ed w) = Return query →
      query ≠ EmptyString →
      search_episode query (requested_languages languages_param)
        = Return (Episode subtitles episode_url) →
      search_subs params w
      = (Return tt,
         log (SearchEpisode query (requested_languages languages_param)
                :: ((fun item =>
                       AddDirectoryItem handle
                         (argv0 +:+ "?" +:+
                          urlencode [("action", "download");
                                     ("link", SubtitleItem.link item);
                                     ("ref", episode_url);
                                     ("filename", np_label get_now_played)])
                         (subs_list_item (np_label get_now_played) item) false)
                      <$> subtitles)) w).
Proof.
  intros Hp H1 H2 ed.
  pose proof (extract_from_label w sh se ep Hp H1 H2) as He. split; [exact He|].
  intros params languages_param query subtitles episode_url Hl Hq Hne Hs.
  by rewrite (search_subs_single _ _ _ _ _ _ _ _ Hl He Hq Hne Hs).
Qed.

End SearchClaims.

Lemma C6_witness :
  search_subs (C := Double.unidentified)
    (dict (Double.plain_qsl "action=search&languages=English")) Double.empty_world
  = (Return tt, log [identity_notification] Double.empty_world).
Proof.
  pose (C := Double.unidentified).
  assert (Hp : prefers_filename (C := C)) by (right; reflexivity).
  destruct (C6_filename_then_label_then_error (C := C) Double.empty_world Hp)
    as (_ & _ & H3).
  destruct (H3 eq_refl eq_refl) as [_ H4].
  apply H4. eexists. vm_compute. reflexivity.
Defined.

Lemma C7_witness :
  search_subs (C := Double.cancelled)
    (dict (Double.plain_qsl "action=search&languages=English")) Double.empty_world
  = (Return tt,
     log [SearchEpisode (C := Double.cancelled) "Show 01x02" ["English"];
          Select "32008" ["Show - 01x02"; "Show (US) - 01x02"]] Double.empty_world).
Proof.
  pose (C := Double.cancelled).
  destruct (C7_single_is_presented_candidates_are_selected (C := C)
              (dict (Double.plain_qsl "action=search&languages=English")) "English"
              Double.empty_world Double.empty_world
              {| showname := "Show"; season := "01"; episode := "02";
                 filename := "Show.S01E02.HDTV-LOL.mkv" |} "Show 01x02")
    as [_ Hc].
  - vm_compute. reflexivity.
  - vm_compute. reflexivity.
  - vm_compute. reflexivity.
  - discriminate.
  - destruct (Hc Double.candidate_items eq_refl) as [_ Hcancel].
    apply Hcancel. reflexivity.
Defined.

Lemma C9_witness :
  search_subs (C := Double.found)
    (<["searchstring" := EmptyString]>
       (dict (Double.plain_qsl "action=manualsearch&languages=English")))
    Double.empty_world
  = (Return tt, Double.empty_world).
Proof.
  pose (C := Double.found).
  refine (proj2 (proj2 (C9_empty_query_skips_provider (C := C) _ Double.empty_world
            Double.empty_world
            {| showname := "Show"; season := "01"; episode := "02";
               filename := "Show.S01E02.HDTV-LOL.mkv" |} _ _)) _).
  - vm_compute. reflexivity.
  - vm_compute. reflexivity.
  - eexists. vm_compute. reflexivity.
Defined.

Lemma C10_witness :
  extract_episode_data (C := Double.labelled) Double.empty_world
  = (Return {| showname := "Show"; season := "01"; episode := "02";
               filename := "Show 1x02-LOL." |}, Double.empty_world).
Proof.
  pose (C := Double.labelled).
  refine (proj1 (C10_label_becomes_filename (C := C) Double.empty_world
                   "Show" "01" "02" _ _ _)).
  - right; reflexivity.
  - reflexivity.
  - reflexivity.
Defined.


(** ** The download flow *)

Section PathFacts.

Lemma startswith_app p s : Py.startswith p (p +:+ s) = true.
Proof.
  induction p as [|c p IH]; [reflexivity|].
  rewrite str_app_cons. simpl. by rewrite Ascii.eqb_refl.
Qed.

Lemma endswith_char_app c s t :
  t ≠ EmptyString → Py.endswith_char c (s +:+ t) = Py.endswith_char c t.
Proof.
  intros Ht. induction s as [|a s IH]; [reflexivity|].
  rewrite str_app_cons. simpl. rewrite IH.
  destruct (s +:+ t) eqn:E; [|reflexivity].
  destruct s; [by rewrite str_app_empty_l in E|by rewrite str_app_cons in E].
Qed.

Lemma join_relative a b :
  a ≠ EmptyString → Py.endswith_char "/" a = false → Py.startswith "/" b = false →
  Py.join a b = a +:+ "/" +:+ b.
Proof.
  intros Ha He Hb. unfold Py.join. rewrite Hb, He.
  apply String.eqb_neq in Ha. by rewrite Ha.
Qed.

End PathFacts.

Section Download.
Context `{C : Collaborators}.

Lemma temp_shape : temp = profile +:+ "temp" ∨ temp = profile +:+ "/" +:+ "temp".
Proof.
  unfold temp, Py.join. simpl Py.startswith.
  destruct (_ || _); [by left | by right].
Qed.

Lemma temp_not_empty : temp ≠ EmptyString.
Proof.
  intros H. apply (f_equal String.length) in H.
  destruct temp_shape as [E|E]; rewrite E, !str_length_app in H; simpl in H; lia.
Qed.

Lemma temp_no_trailing_slash : Py.endswith_char "/" temp = false.
Proof.
  destruct temp_shape as [E|E]; rewrite E.
  - by rewrite endswith_char_app.
  - rewrite endswith_char_app; [|done]. reflexivity.
Qed.

Lemma staging_path_relative filename_ :
  Py.startswith "/" (subs_name filename_) = false →
  staging_path filename_ = temp +:+ "/" +:+ subs_name filename_
  ∧ below temp (staging_path filename_) = true.
Proof.
  intros H. unfold staging_path.
  rewrite (join_relative _ _ temp_not_empty temp_no_trailing_slash H).
  split; [reflexivity|]. unfold below.
  rewrite <- str_app_assoc. apply startswith_app.
Qed.

Lemma write_file_prepared link referrer subspath bytes (w : World) :
  write_file subspath bytes (prepared link referrer subspath w)
  = (Return tt, stored subspath bytes (prepared link referrer subspath w)).
Proof. unfold write_file, stored. by destruct (below temp subspath). Qed.

Lemma download_prelude_run (w : World) link referrer subspath :
  (exists_ <- vfs_exists_temp ;;
   (if exists_ then rmtree_temp else ret tt) ;;
   mkdirs_temp ;;
   emit (DownloadSubs link referrer subspath)) w
  = (Return tt, prepared link referrer subspath w).
Proof.
  unfold bind, vfs_exists_temp, rmtree_temp, mkdirs_temp, emit, ret, prepared,
    staging_prelude.
  destruct w as [tr [dir|] other]; simpl; rewrite <- ?app_assoc; reflexivity.
Qed.

(** What a download does, by the provider's answer. *)
Lemma download_subs_run link referrer filename_ (w : World) :
  let subspath := staging_path filename_ in
  let w1 := prepared link referrer subspath w in
  download_subs link referrer filename_ w
  = match fetch_subs link referrer with
    | Return bytes =>
        (Return tt,
         log [staged_entry subspath; success_notification] (stored subspath bytes w1))
    | Raise ConnectionError => (Return tt, log [connectivity_notification] w1)
    | Raise DailyLimitError => (Return tt, log [daily_limit_notification] w1)
    | Raise e => (Raise e, w1)
    end.
Proof.
  intros subspath w1. subst w1.
  unfold download_subs. fold (staging_path filename_). fold subspath.
  unfold try_except_else, parser_download_subs, notification, write_file.
  unfold bind, vfs_exists_temp, rmtree_temp, mkdirs_temp, emit, ret, raise.
  unfold log, stored, prepared, staging_prelude.
  destruct w as [tr [dir|] other]; simpl;
    (destruct (fetch_subs link referrer) as [bytes|e]; simpl;
     [destruct (below temp subspath); simpl
     |destruct e; simpl]);
    rewrite <- ?app_assoc; simpl; try reflexivity.
Qed.

End Download.

Section DownloadClaims.
Context `{C : Collaborators}.

Lemma trace_stored path bytes (w : World) : trace (stored path bytes w) = trace w.
Proof. unfold stored. by destruct (below temp path). Qed.

Lemma staging_stored_prepared link referrer path bytes (w : World) :
  staging (stored path bytes (prepared link referrer path w))
  = Some (if below temp path then {[path := bytes]} else ∅).
Proof.
  unfold stored. destruct (below temp path); simpl; [|done].
  by rewrite insert_empty.
Qed.

Lemma prelude_quiet (p : Event → bool) (w : World) link referrer subspath :
  p (VfsExists temp) = false → p (Rmtree temp) = false → p (Mkdirs temp) = false →
  p (DownloadSubs link referrer subspath) = false →
  ∀ evs, only_events p ((staging_prelude w ++ [DownloadSubs link referrer subspath]) ++ evs)
         = only_events p evs.
Proof.
  intros H1 H2 H3 H4 evs. unfold only_events, staging_prelude.
  destruct (staging w); simpl; rewrite ?H1, ?H2, ?H3, ?H4; simpl;
    rewrite ?H1, ?H2, ?H3, ?H4; reflexivity.
Qed.

(** The calls a download adds, by the provider's answer. *)
Lemma download_subs_events link referrer filename_ (w : World) :
  let subspath := staging_path filename_ in
  new_events w (download_subs link referrer filename_ w)
  = (staging_prelude w ++ [DownloadSubs link referrer subspath])
    ++ match fetch_subs link referrer with
       | Return _ => [staged_entry subspath; success_notification]
       | Raise ConnectionError => [connectivity_notification]
       | Raise DailyLimitError => [daily_limit_notification]
       | Raise _ => []
       end.
Proof.
  intros subspath. rewrite download_subs_run. fold subspath.
  apply new_events_app. unfold staging_prelude.
  destruct (fetch_subs link referrer) as [bytes|e]; [|destruct e]; simpl;
    rewrite ?trace_stored; simpl; destruct (staging w); simpl;
    rewrite <- ?app_assoc, ?app_nil_r; reflexivity.
Qed.

Lemma download_subs_staging link referrer filename_ (w : World) :
  let subspath := staging_path filename_ in
  staging (snd (download_subs link referrer filename_ w))
  = Some match fetch_subs link referrer with
         | Return bytes => if below temp subspath then {[subspath := bytes]} else ∅
         | Raise _ => ∅
         end.
Proof.
  intros subspath. rewrite download_subs_run. fold subspath.
  destruct (fetch_subs link referrer) as [bytes|e]; [|by destruct e].
  simpl. apply staging_stored_prepared.
Qed.

Lemma download_subs_outcome link referrer filename_ (w : World) :
  fst (download_subs link referrer filename_ w)
  = match fetch_subs link referrer with
    | Return _ | Raise ConnectionError | Raise DailyLimitError => Return tt
    | Raise e => Raise e
    end.
Proof.
  rewrite download_subs_run.
  destruct (fetch_subs link referrer) as [bytes|e]; [|by destruct e]. done.
Qed.

(** C5 (as the code has it): a connection failure of the provider
    gives exactly one connectivity notification (message 32005, shown
    for the host's default time) and no result entry; the daily-limit
    error gives exactly one notification of its own (message 32003,
    shown for 3000 ms) and no result entry, and nothing is staged; any
    other failure gives no entry and no notification; only a successful
    download gives exactly one result entry, which points at the staged
    file, together with the success notification (also 3000 ms). *)
Theorem C5_download_notifies_or_stages link referrer filename_ (w : World) :
  let subspath := staging_path filename_ in
  let run := download_subs link referrer filename_ w in
  let shown := only_events is_notification (new_events w run) in
  let entries := only_events is_entry (new_events w run) in
  (fetch_subs link referrer = Raise ConnectionError →
     fst run = Return tt ∧ shown = [connectivity_notification] ∧ entries = []
     ∧ staging (snd run) = Some ∅)
  ∧ (fetch_subs link referrer = Raise DailyLimitError →
     fst run = Return tt ∧ shown = [daily_limit_notification] ∧ entries = []
     ∧ staging (snd run) = Some ∅
     ∧ daily_limit_notification ≠ connectivity_notification
     ∧ display_time daily_limit_notification = Some 3000%Z
     ∧ display_time connectivity_notification = Some notification_default_time)
  ∧ (∀ e, fetch_subs link referrer = Raise e →
     shown = match e with
             | ConnectionError => [connectivity_notification]
             | DailyLimitError => [daily_limit_notification]
             | _ => []
             end
     ∧ entries = [])
  ∧ (∀ bytes, fetch_subs link referrer = Return bytes →
     fst run = Return tt ∧ entries = [staged_entry subspath]
     ∧ shown = [success_notification]
     ∧ (below temp subspath = true → staging (snd run) = Some {[subspath := bytes]})).
Proof.
  intros subspath run shown entries. subst shown entries run.
  rewrite download_subs_events, download_subs_outcome, download_subs_staging.
  fold subspath. rewrite !prelude_quiet by reflexivity.
  repeat split.
  - by rewrite H.
  - by rewrite H.
  - by rewrite H.
  - by rewrite H.
  - by rewrite H.
  - by rewrite H.
  - by rewrite H.
  - by rewrite H.
  - discriminate.
  - rewrite H. by destruct e.
  - rewrite H. by destruct e.
  - by rewrite H.
  - by rewrite H.
  - by rewrite H.
  - rewrite H. intros ->. done.
Qed.

(** C8: a download first asks whether the staging directory exists,
    removes it if so, and creates it again, all before the provider is
    asked for the bytes; what the staging directory holds afterwards
    does not depend on what it held before; after a successful download
    under a relative name it holds that one file; and a second run of
    the same request leaves it as the first one did. *)
Theorem C8_staging_is_recreated link referrer filename_ (w : World) :
  let subspath := staging_path filename_ in
  let run := download_subs link referrer filename_ w in
  (∃ rest, new_events w run
           = VfsExists temp
             :: (if staging w is Some _ then [Rmtree temp] else [])
             ++ Mkdirs temp :: DownloadSubs link referrer subspath :: rest)
  ∧ (∀ w', staging (snd (download_subs link referrer filename_ w'))
           = staging (snd run))
  ∧ (∀ bytes, fetch_subs link referrer = Return bytes →
       Py.startswith "/" (subs_name filename_) = false →
       staging (snd run) = Some {[temp +:+ "/" +:+ subs_name filename_ := bytes]})
  ∧ staging (snd (download_subs link referrer filename_ (snd run)))
    = staging (snd run)
  ∧ (∃ rest, new_events (snd run) (download_subs link referrer filename_ (snd run))
             = [VfsExists temp; Rmtree temp; Mkdirs temp] ++ rest).
Proof.
  intros subspath run. subst run. split; [|split; [|split; [|split]]].
  - rewrite download_subs_events. fold subspath. eexists.
    unfold staging_prelude. simpl. rewrite <- !app_assoc. simpl. reflexivity.
  - intros w'. by rewrite !download_subs_staging.
  - intros bytes Hf Hrel. rewrite download_subs_staging, Hf.
    destruct (staging_path_relative filename_ Hrel) as [<- ->]. done.
  - by rewrite !download_subs_staging.
  - rewrite download_subs_events. unfold staging_prelude.
    rewrite download_subs_staging. simpl. eexists. reflexivity.
Qed.

End DownloadClaims.

Lemma C5_witness :
  only_events is_notification
    (new_events Double.empty_world
       (download_subs (C := Double.limit_reached) "/original/1/0" "http://ref"
          "Show.S01E02.HDTV-LOL.mkv" Double.empty_world))
  = [daily_limit_notification].
Proof.
  destruct (C5_download_notifies_or_stages (C := Double.limit_reached)
              "/original/1/0" "http://ref" "Show.S01E02.HDTV-LOL.mkv"
              Double.empty_world) as (_ & H & _).
  destruct (H eq_refl) as (_ & Hs & _). exact Hs.
Defined.

(** C5, as stated, fails: with a host whose default display time is
    5000 ms, the daily-limit notification (3000 ms) is not shown longer
    than the connectivity notification, and no longer than the success
    notification either. *)
Lemma C5_counterexample :
  ∃ shown,
    only_events is_notification
      (new_events Double.empty_world
         (download_subs (C := Double.limit_reached) "/original/1/0" "http://ref"
            "Show.S01E02.HDTV-LOL.mkv" Double.empty_world)) = [shown]
    ∧ ¬ (∀ t t0, display_time shown = Some t →
                 display_time (connectivity_notification (C := Double.limit_reached)) = Some t0 →
                 (t0 < t)%Z).
Proof.
  exists (daily_limit_notification (C := Double.limit_reached)). split.
  - vm_compute. reflexivity.
  - intros H. specialize (H 3000%Z 5000%Z eq_refl eq_refl). lia.
Qed.

Lemma C8_witness :
  staging (snd (download_subs (C := Double.found) "/original/1/0" "http://ref"
                  "Show.S01E02.HDTV-LOL.mkv" Double.empty_world))
  = Some {[ "/profile/temp/Show.S01E02.HDTV-LOL.srt" := "1" ]}.
Proof.
  destruct (C8_staging_is_recreated (C := Double.found) "/original/1/0" "http://ref"
              "Show.S01E02.HDTV-LOL.mkv" Double.empty_world) as (_ & _ & H & _).
  exact (H "1" eq_refl eq_refl).
Defined.


(** ** The router *)

Create HintDb emits.

Section Emits.
Context `{C : Collaborators}.
Variable P : Event → Prop.

Lemma emits_ret {A} (a : A) : emits P (ret a).
Proof. intros w. exists []. simpl. by rewrite app_nil_r. Qed.

Lemma emits_raise {A} e : emits P (raise (A := A) e).
Proof. intros w. exists []. simpl. by rewrite app_nil_r. Qed.

Lemma emits_emit ev : P ev → emits P (emit ev).
Proof. intros H w. exists [ev]. simpl. by split; [|constructor]. Qed.

Lemma emits_bind {A B} (m : M A) (k : A → M B) :
  emits P m → (∀ a, emits P (k a)) → emits P (bind m k).
Proof.
  intros Hm Hk w. unfold bind. destruct (Hm w) as (evs1 & E1 & F1).
  destruct (m w) as [[a|e] w1]; simpl in E1.
  - destruct (Hk a w1) as (evs2 & E2 & F2).
    exists (evs1 ++ evs2). rewrite E2, E1, app_assoc.
    split; [done|]. by apply Forall_app.
  - by exists evs1.
Qed.

Lemma emits_try_except_else {A B} (body : M A) (h : Exn → option (M B)) (k : A → M B) :
  emits P body →
  (∀ e handler, h e = Some handler → emits P handler) →
  (∀ a, emits P (k a)) →
  emits P (try_except_else body h k).
Proof.
  intros Hm Hh Hk w. unfold try_except_else. destruct (Hm w) as (evs1 & E1 & F1).
  destruct (body w) as [[a|e] w1]; simpl in E1.
  - destruct (Hk a w1) as (evs2 & E2 & F2).
    exists (evs1 ++ evs2). rewrite E2, E1, app_assoc.
    split; [done|]. by apply Forall_app.
  - destruct (h e) as [handler|] eqn:Eh; [|by exists evs1].
    destruct (Hh e handler Eh w1) as (evs2 & E2 & F2).
    exists (evs1 ++ evs2). rewrite E2, E1, app_assoc.
    split; [done|]. by apply Forall_app.
Qed.

Lemma emits_try_except {A} (body : M A) (h : Exn → option (M A)) :
  emits P body →
  (∀ e handler, h e = Some handler → emits P handler) →
  emits P (try_except body h).
Proof. intros. apply emits_try_except_else; auto using @emits_ret. Qed.

Lemma emits_getitem params key : emits P (getitem params key).
Proof. unfold getitem. destruct (params !! key); auto using @emits_ret, @emits_raise. Qed.

Lemma emits_index {A} (l : list A) i : emits P (index l i).
Proof. unfold index. destruct (l !! _); auto using @emits_ret, @emits_raise. Qed.

Lemma emits_parse text : emits P (parse text).
Proof. unfold parse. destruct (parse_filename _); auto using @emits_ret, @emits_raise. Qed.

Lemma emits_only {A} cls (handler : M A) e handler' :
  emits P handler → only cls handler e = Some handler' → emits P handler'.
Proof. intros H. destruct cls, e; simpl; intros [= <-] || discriminate; exact H. Qed.

End Emits.

#[local] Hint Resolve emits_ret emits_raise emits_emit emits_bind emits_try_except_else
  emits_try_except emits_getitem emits_index emits_parse : emits.

Section RouterFacts.
Context `{C : Collaborators}.

Lemma not_end_notification a b c d e : not_end (Notification a b c d e).
Proof. reflexivity. Qed.
Lemma not_end_select a b : not_end (Select a b).
Proof. reflexivity. Qed.
Lemma not_end_entry a b c d : not_end (AddDirectoryItem a b c d).
Proof. reflexivity. Qed.
Lemma not_end_search a b : not_end (SearchEpisode a b).
Proof. reflexivity. Qed.
Lemma not_end_get a b : not_end (GetEpisode a b).
Proof. reflexivity. Qed.
#[local] Hint Resolve not_end_notification not_end_select not_end_entry
  not_end_search not_end_get : emits.

Lemma emits_display_subs subs_list episode_url filename_ :
  emits not_end (display_subs subs_list episode_url filename_).
Proof. induction subs_list; simpl; auto with emits. Qed.

Lemma emits_extract : emits not_end extract_episode_data.
Proof.
  unfold extract_episode_data. apply emits_bind.
  - destruct (_ || _); [|auto with emits].
    apply emits_try_except; [auto with emits|].
    intros e handler He. eapply emits_only; [|exact He].
    apply emits_try_except; [auto with emits|].
    intros e' handler' He'. eapply emits_only; [|exact He'].
    unfold notification. auto with emits.
  - intros [[[??]?]?]. auto with emits.
Qed.

Lemma emits_search_subs params : emits not_end (search_subs params).
Proof.
  unfold search_subs. apply emits_bind; [auto with emits|]. intros l.
  apply emits_try_except_else; [apply emits_extract| |].
  - intros e handler He. eapply emits_only; [|exact He]. auto with emits.
  - intros ed. apply emits_bind.
    + unfold search_query. apply emits_bind; [auto with emits|].
      intros a. destruct (String.eqb a "search"); auto with emits.
    + intros q. destruct (negb _); [|auto with emits].
      apply emits_try_except_else.
      * unfold parser_search_episode. apply emits_bind; [auto with emits|].
        intros _. destruct (search_episode _ _); auto with emits.
      * intros e handler. unfold notification.
        destruct e; intros [= <-]; auto with emits.
      * intros results. apply emits_bind.
        -- unfold pick_episode. destruct results as [? ?|l']; [auto with emits|].
           apply emits_bind; [unfold select; auto with emits|].
           intros i. destruct (0 <=? i)%Z; [|auto with emits].
           apply emits_try_except.
           ++ apply emits_bind; [auto with emits|]. intros item.
              apply emits_bind; [|auto with emits].
              unfold parser_get_episode. apply emits_bind; [auto with emits|].
              intros _. destruct (get_episode _ _); auto with emits.
           ++ intros e handler. unfold notification.
              destruct e; intros [= <-]; auto with emits.
        -- intros [[subtitles episode_url|l']|]; simpl; auto with emits.
           apply emits_display_subs.
Qed.

Lemma emits_download_subs link referrer filename_ :
  emits not_end (download_subs link referrer filename_).
Proof.
  intros w. exists (new_events w (download_subs link referrer filename_ w)). split.
  - rewrite download_subs_events. rewrite download_subs_run.
    unfold staging_prelude.
    destruct (fetch_subs link referrer) as [bytes|e]; [|destruct e]; simpl;
      rewrite ?trace_stored; simpl; destruct (staging w); simpl;
      rewrite <- ?app_assoc, ?app_nil_r; reflexivity.
  - rewrite download_subs_events. unfold staging_prelude.
    destruct (fetch_subs link referrer) as [bytes|e]; [|destruct e];
      destruct (staging w); simpl; repeat constructor.
Qed.

Lemma emits_dispatched params action : emits not_end (dispatched params action).
Proof.
  unfold dispatched. destruct (_ || _); [apply emits_search_subs|].
  destruct (String.eqb action "download"); [|auto with emits].
  apply emits_bind; [auto with emits|]. intros link_.
  apply emits_bind; [auto with emits|]. intros ref.
  apply emits_bind; [auto with emits|]. intros fn.
  apply emits_download_subs.
Qed.

Lemma router_run paramstring (w : World) :
  router paramstring w
  = match dict (parse_qsl paramstring) !! "action" with
    | None => (Raise (KeyError "action"), w)
    | Some action =>
        match dispatched (dict (parse_qsl paramstring)) action w with
        | (Return _, w1) => (Return tt, log [EndOfDirectory handle] w1)
        | (Raise e, w1) => (Raise e, w1)
        end
    end.
Proof.
  change (router paramstring)
    with (action <- getitem (dict (parse_qsl paramstring)) "action" ;;
          dispatched (dict (parse_qsl paramstring)) action ;;
          emit (EndOfDirectory handle)).
  unfold bind, getitem. destruct (_ !! "action") as [action|]; [|reflexivity].
  unfold ret at 1.
  destruct (dispatched _ _ w) as [[[]|e] w1]; reflexivity.
Qed.

Lemma count_end_quiet evs : Forall not_end evs → count_events is_end evs = 0.
Proof.
  induction 1 as [|ev evs H _ IH]; [reflexivity|].
  unfold count_events, only_events in *. simpl. unfold not_end in H. by rewrite H.
Qed.

Lemma count_events_app p evs1 evs2 :
  count_events p (evs1 ++ evs2) = count_events p evs1 + count_events p evs2.
Proof. unfold count_events, only_events. by rewrite List.filter_app, length_app. Qed.

(** The end-of-listing signal is given once when the dispatched flow
    returns, and not at all when an exception leaves it. *)
Lemma router_end_count paramstring (w : World) :
  count_events is_end (new_events w (router paramstring w))
  = match fst (router paramstring w) with Return _ => 1 | Raise _ => 0 end.
Proof.
  rewrite router_run. destruct (_ !! "action") as [action|].
  - destruct (emits_dispatched (dict (parse_qsl paramstring)) action w)
      as (evs & E & F).
    destruct (dispatched _ _ w) as [[[]|e] w1]; simpl in *.
    + rewrite (new_events_app _ (evs ++ [EndOfDirectory handle]))
        by (simpl; rewrite E; by rewrite app_assoc).
      rewrite count_events_app, (count_end_quiet _ F). reflexivity.
    + rewrite (new_events_app _ evs) by done. by apply count_end_quiet.
  - by rewrite new_events_same.
Qed.

End RouterFacts.


Section RouterClaim.
Context `{C : Collaborators}.

Lemma extract_outcome (w : World) :
  (∃ ed, extract_episode_data w = (Return ed, w))
  ∨ extract_episode_data w = (Raise ParseError, log [identity_notification] w).
Proof.
  unfold extract_episode_data. unfold_m.
  destruct (_ || _).
  - destruct (parse_filename _) as [[[??]?]|]; [left; by eexists|].
    destruct (parse_filename _) as [[[??]?]|]; [left; by eexists|].
    by right.
  - left. by eexists.
Qed.

Lemma search_subs_failed params languages_param (w w1 : World) ed query e :
  params !! "languages" = Some languages_param →
  extract_episode_data w = (Return ed, w1) →
  fst (search_query params ed w1) = Return query →
  query ≠ EmptyString →
  search_episode query (requested_languages languages_param) = Raise e →
  let w2 := log [SearchEpisode query (requested_languages languages_param)] w1 in
  search_subs params w
  = match e with
    | ConnectionError => (Return tt, log [connectivity_notification] w2)
    | SubsSearchError => (Return tt, w2)
    | _ => (Raise e, w2)
    end.
Proof.
  intros Hl He Hq Hne Hs w2.
  rewrite (search_subs_resolved _ _ _ _ _ _ Hl He Hq).
  apply String.eqb_neq in Hne. rewrite Hne. simpl.
  unfold try_except_else. rewrite parser_search_episode_run, Hs.
  by destruct e.
Qed.

Lemma search_query_value params ed (w : World) action :
  params !! "action" = Some action →
  (action ≠ "search" → is_Some (params !! "searchstring")) →
  ∃ query, fst (search_query params ed w) = Return query.
Proof.
  intros Ha Hs. unfold search_query, bind. rewrite (getitem_some _ _ _ _ Ha).
  destruct (String.eqb_spec action "search") as [->|Hne]; [by eexists|].
  destruct (Hs Hne) as [v Hv]. rewrite (getitem_some _ _ _ _ Hv). by eexists.
Qed.

(** With the keys in place and a provider that fails only in the ways
    the search flow handles, the search flow returns. *)
Lemma search_subs_returns params action (w : World) :
  params !! "action" = Some action →
  is_Some (params !! "languages") →
  (action ≠ "search" → is_Some (params !! "searchstring")) →
  provider_failures_handled → select_in_range →
  fst (search_subs params w) = Return tt.
Proof.
  intros Ha [l Hl] Hs (Hsearch & Hget & Hpage & _) Hsel.
  destruct (extract_outcome w) as [[ed He]|He].
  - destruct (search_query_value params ed w action Ha Hs) as [query Hq].
    destruct (String.eqb_spec query EmptyString) as [->|Hne].
    { rewrite (search_subs_resolved _ _ _ _ _ _ Hl He Hq). done. }
    destruct (search_episode query (requested_languages l))
      as [[subtitles episode_url|cands]|e] eqn:Hr.
    + by rewrite (search_subs_single _ _ _ _ _ _ _ _ Hl He Hq Hne Hr).
    + rewrite (search_subs_candidates _ _ _ _ _ _ _ Hl He Hq Hne Hr). simpl.
      destruct (Z.leb_spec 0 (dialog_select (get_ui_string 32008)
                                (EpisodeItem.title <$> cands))) as [Hi|Hi]; [|done].
      pose proof (Hsel (get_ui_string 32008) (EpisodeItem.title <$> cands)) as Hlt.
      rewrite length_fmap in Hlt.
      destruct (lookup_lt_is_Some_2 cands
                  (Z.to_nat (dialog_select (get_ui_string 32008)
                               (EpisodeItem.title <$> cands)))) as [item Hitem]; [lia|].
      rewrite Hitem.
      destruct (get_episode _ _) as [[? ?|l']|e] eqn:Hg; [done| |].
      * by destruct (Hpage _ _ _ Hg).
      * by destruct (Hget _ _ _ Hg) as [-> | ->].
    + rewrite (search_subs_failed _ _ _ _ _ _ _ Hl He Hq Hne Hr).
      by destruct (Hsearch _ _ _ Hr) as [-> | ->].
  - unfold search_subs, bind. rewrite (getitem_some _ _ _ _ Hl).
    unfold try_except_else. rewrite He. reflexivity.
Qed.

Lemma dispatched_returns params (w : World) action :
  params !! "action" = Some action →
  well_formed params → provider_failures_handled → select_in_range →
  fst (dispatched params action w) = Return tt.
Proof.
  intros Ha (action' & Ha' & Hsearch & Hmanual & Hdownload) Hp Hsel.
  rewrite Ha in Ha'. injection Ha' as <-.
  unfold dispatched.
  destruct (String.eqb_spec action "search") as [->|Hn1]; simpl.
  { apply (search_subs_returns _ "search"); auto. by intros []. }
  destruct (String.eqb_spec action "manualsearch") as [->|Hn2]; simpl.
  { destruct (Hmanual eq_refl). apply (search_subs_returns _ "manualsearch"); auto. }
  destruct (String.eqb_spec action "download") as [->|Hn3]; [|done].
  destruct (Hdownload eq_refl) as ([l Hl] & [r Hr] & [f Hf]).
  unfold bind. rewrite (getitem_some _ _ _ _ Hl), (getitem_some _ _ _ _ Hr),
    (getitem_some _ _ _ _ Hf).
  rewrite download_subs_outcome.
  destruct Hp as (_ & _ & _ & Hfetch).
  destruct (fetch_subs l r) as [bytes|e] eqn:Hfe; [done|].
  by destruct (Hfetch _ _ _ Hfe) as [-> | ->].
Qed.

(** C1 (as the code has it): when the decoded parameters hold 'action'
    and the keys of its flow, the provider fails only in the ways the
    dispatched flow handles (connection failure or no results while
    searching, connection failure or daily limit while downloading) and
    the selection dialog answers with a position of its list or a
    negative number, [router] returns and signals the end of the
    listing exactly once, as its last call, whatever was presented
    before and whether or not identity resolution failed, the provider
    failed in one of those ways or the selection was cancelled. *)
Theorem C1_router_ends_listing_once paramstring (w : World) :
  well_formed (dict (parse_qsl paramstring)) →
  provider_failures_handled →
  select_in_range →
  fst (router paramstring w) = Return tt
  ∧ count_events is_end (new_events w (router paramstring w)) = 1
  ∧ ∃ before, new_events w (router paramstring w) = before ++ [EndOfDirectory handle].
Proof.
  intros Hwf Hp Hsel.
  assert (Hret : fst (router paramstring w) = Return tt).
  { rewrite router_run. destruct Hwf as (action & Ha & Hrest). rewrite Ha.
    pose proof (dispatched_returns _ w action Ha
                  (ex_intro _ action (conj Ha Hrest)) Hp Hsel) as Hd.
    destruct (dispatched _ _ w) as [[[]|e] w1]; [done|discriminate]. }
  split; [exact Hret|]. split.
  - by rewrite router_end_count, Hret.
  - rewrite router_run in *. destruct (_ !! "action") as [action|]; [|discriminate].
    destruct (emits_dispatched (dict (parse_qsl paramstring)) action w)
      as (evs & E & _).
    destruct (dispatched _ _ w) as [[[]|e] w1]; [|discriminate]. simpl in E.
    exists evs. apply new_events_app. simpl. by rewrite E, app_assoc.
Qed.

(** An exception that leaves the dispatched flow leaves [router] too,
    and the end of the listing is not signalled. *)
Lemma router_escaping_exception paramstring (w : World) e :
  fst (router paramstring w) = Raise e →
  count_events is_end (new_events w (router paramstring w)) = 0.
Proof. intros H. by rewrite router_end_count, H. Qed.

End RouterClaim.

Lemma C1_witness :
  count_events is_end
    (new_events Double.empty_world
       (router (C := Double.offline) "action=search&languages=English"
          Double.empty_world)) = 1.
Proof.
  refine (proj1 (proj2 (C1_router_ends_listing_once (C := Double.offline)
            "action=search&languages=English" Double.empty_world _ _ _))).
  - exists "search". split; [vm_compute; reflexivity|].
    split; [intros _; eexists; vm_compute; reflexivity|].
    split; intros [=].
  - repeat split; try (intros ? ? e [= <-]; by left); intros ? ? ? [=].
  - intros heading options. simpl.
    destruct (Z.ltb_spec 0 (Z.of_nat (length options))); lia.
Defined.

(** C1, as stated, fails: a daily-limit error raised while searching, or
    a no-results error raised while downloading, is handled by neither
    flow; it leaves [router] and the end of the listing is never
    signalled. *)
Lemma C1_counterexample :
  (let run := router (C := Double.limit_reached) "action=search&languages=English"
                Double.empty_world in
   fst run = Raise DailyLimitError
   ∧ count_events is_end (new_events Double.empty_world run) = 0)
  ∧ (let run := router (C := Double.nothing_found)
                  "action=download&link=a&ref=b&filename=Show.S01E02.HDTV-LOL.mkv"
                  Double.empty_world in
     fst run = Raise SubsSearchError
     ∧ count_events is_end (new_events Double.empty_world run) = 0).
Proof. split; split; vm_compute; reflexivity. Qed.


(** ** File names: the staged name and the placeholder *)

Section Names.

Lemma substring_prefix p t : String.substring 0 (String.length p) (p +:+ t) = p.
Proof.
  induction p as [|c p IH].
  - rewrite str_app_empty_l. by destruct t.
  - rewrite str_app_cons. simpl. by rewrite IH.
Qed.

(** A three-character extension is replaced by [srt]. *)
Lemma subs_name_three_characters stem a b c :
  subs_name (stem +:+ String "." (String a (String b (String c EmptyString))))
  = stem +:+ ".srt".
Proof.
  unfold subs_name, Py.drop_last3.
  change (String "." (String a (String b (String c EmptyString))))
    with ("." +:+ String a (String b (String c EmptyString))).
  rewrite <- str_app_assoc, str_length_app. simpl String.length.
  replace (String.length (stem +:+ ".") + 3 - 3) with (String.length (stem +:+ "."))
    by lia.
  rewrite substring_prefix. by rewrite str_app_assoc.
Qed.

Lemma length_encode_utf8 s : String.length s ≤ String.length (Py.encode_utf8 s).
Proof.
  induction s as [|c s IH]; simpl; [done|].
  destruct (_ <? _)%N; simpl; lia.
Qed.

Lemma length_repr_body q b : String.length b ≤ String.length (Py.repr_body q b).
Proof.
  induction b as [|c b IH]; simpl; [done|].
  repeat (match goal with |- context [if ?t then _ else _] => destruct t end);
    rewrite ?str_app_cons, ?str_app_empty_l; simpl; lia.
Qed.

Lemma length_bytes_repr b : String.length b + 3 ≤ String.length (Py.bytes_repr b).
Proof.
  unfold Py.bytes_repr. simpl. rewrite str_length_app. simpl.
  pose proof (length_repr_body
                (if Py.has_char "'" b && negb (Py.has_char Py.dquote b)
                 then Py.dquote else "'"%char) b).
  lia.
Qed.

(** The rendering of the encoded show name is longer than the show
    name, so the synthesized name is never the one the placeholder
    pattern gives. *)
Lemma bytes_placeholder_differs showname_ season_ episode_ :
  Py.bytes_repr (Py.encode_utf8 showname_) +:+ "." +:+ season_ +:+ "x" +:+ episode_
    +:+ ".foo"
  ≠ Spec.placeholder showname_ season_ episode_.
Proof.
  unfold Spec.placeholder. intros H. apply (f_equal String.length) in H.
  rewrite !str_length_app in H.
  pose proof (length_bytes_repr (Py.encode_utf8 showname_)).
  pose proof (length_encode_utf8 showname_). lia.
Qed.

End Names.

Section NameClaims.
Context `{C : Collaborators}.

Lemma extract_from_library (w : World) :
  ¬ prefers_filename →
  extract_episode_data w
  = (Return {| showname := np_showtitle get_now_played;
               season := Py.zfill 2 (Py.str_of_int (np_season get_now_played));
               episode := Py.zfill 2 (Py.str_of_int (np_episode get_now_played));
               filename :=
                 if bool_decide (Py.lower (snd (Py.splitext base_filename)) ∈ VIDEOFILES)
                 then base_filename
                 else Py.bytes_repr (Py.encode_utf8 (np_showtitle get_now_played))
                        +:+ "." +:+ Py.zfill 2 (Py.str_of_int (np_season get_now_played))
                        +:+ "x" +:+ Py.zfill 2 (Py.str_of_int (np_episode get_now_played))
                        +:+ ".foo" |}, w).
Proof.
  intros Hn. unfold extract_episode_data, prefers_filename in *.
  destruct (String.eqb_spec (getSetting "use_filename") "true") as [E|_]; [tauto|].
  destruct (String.eqb_spec (np_showtitle get_now_played) EmptyString) as [E|_]; [tauto|].
  simpl. unfold bind, ret. fold base_filename.
  by destruct (bool_decide _).
Qed.

(** C3 (what the code does): for a library item whose file has no
    recognized video extension, the resolved [filename] is the [repr]
    of the UTF-8 encoded show title, [b'...'], followed by
    [.<season>x<episode>.foo]; it is never the name the placeholder
    pattern [<showname>.<season>x<episode>.foo] yields. *)
Theorem C3_placeholder_holds_bytes_repr (w : World) :
  ¬ prefers_filename →
  Py.lower (snd (Py.splitext base_filename)) ∉ VIDEOFILES →
  let showname_ := np_showtitle get_now_played in
  let season_ := Py.zfill 2 (Py.str_of_int (np_season get_now_played)) in
  let episode_ := Py.zfill 2 (Py.str_of_int (np_episode get_now_played)) in
  ∃ ed, extract_episode_data w = (Return ed, w)
        ∧ showname ed = showname_ ∧ season ed = season_ ∧ episode ed = episode_
        ∧ filename ed = Py.bytes_repr (Py.encode_utf8 showname_) +:+ "." +:+ season_
                          +:+ "x" +:+ episode_ +:+ ".foo"
        ∧ filename ed ≠ Spec.placeholder showname_ season_ episode_.
Proof.
  intros Hn Hext showname_ season_ episode_.
  eexists. split; [by apply extract_from_library|]. simpl.
  rewrite bool_decide_eq_false_2 by done.
  repeat split. apply bytes_placeholder_differs.
Qed.

End NameClaims.

Lemma C3_witness :
  ∃ ed, extract_episode_data (C := Double.library) Double.empty_world
        = (Return ed, Double.empty_world)
        ∧ filename ed = "b'Show'.03x07.foo"
        ∧ Spec.placeholder "Show" "03" "07" = "Show.03x07.foo".
Proof.
  destruct (C3_placeholder_holds_bytes_repr (C := Double.library) Double.empty_world)
    as (ed & He & _ & _ & _ & Hf & _).
  - intros [H|H]; discriminate H.
  - vm_compute. intros H. repeat (apply elem_of_cons in H as [H|H]; [discriminate H|]).
    by apply elem_of_nil in H.
  - exists ed. split; [exact He|]. split; [exact Hf|reflexivity].
Defined.

(** The same at a show title with an accent. *)
Example placeholder_accented :
  fst (extract_episode_data (C := Double.library_accented) Double.empty_world)
  = Return {| showname := "Caf" +:+ String (ascii_of_N 233) EmptyString;
              season := "03"; episode := "07";
              filename := "b'Caf\xc3\xa9'.03x07.foo" |}.
Proof. vm_compute. reflexivity. Qed.

(** C4 (what the code does): the staged name is the file name without
    its last three characters, plus [srt].  For the recognized video
    extensions [.ts] and [.m2ts] that is not the file name with its
    extension replaced: [Show.S01E02.ts] is staged as [Show.S01E02srt]
    and [Show.S01E02.m2ts] as [Show.S01E02.msrt]. *)
Theorem C4_staged_name_cuts_three_characters :
  ".ts" ∈ VIDEOFILES ∧ ".m2ts" ∈ VIDEOFILES
  ∧ subs_name "Show.S01E02.ts" = "Show.S01E02srt"
  ∧ Spec.subs_name "Show.S01E02.ts" = "Show.S01E02.srt"
  ∧ subs_name "Show.S01E02.m2ts" = "Show.S01E02.msrt"
  ∧ Spec.subs_name "Show.S01E02.m2ts" = "Show.S01E02.srt"
  ∧ staging (snd (router (C := Double.found)
                    "action=download&link=a&ref=b&filename=Show.S01E02.ts"
                    Double.empty_world))
    = Some {[ "/profile/temp/Show.S01E02srt" := "1" ]}.
Proof.
  split; [set_solver|]. split; [set_solver|].
  repeat split; vm_compute; reflexivity.
Qed.


(** ** The release pattern *)

Ltac norm_app_in H := repeat (rewrite str_app_cons in H || rewrite str_app_empty_l in H).
Tactic Notation "norm_app" "in" hyp(H) := norm_app_in H.

Section Pattern.
Import ReSpec.

Lemma ascii_eqb_true a b : Ascii.eqb a b = true ↔ a = b.
Proof. apply Ascii.eqb_eq. Qed.

Lemma startswith_spec p s : Py.startswith p s = true ↔ ∃ rest, s = p +:+ rest.
Proof.
  revert s. induction p as [|a p IH]; intros s.
  - split; [by exists s|done].
  - destruct s as [|b s]; simpl.
    + split; [done|]. intros [rest H]. by rewrite str_app_cons in H.
    + destruct (Ascii.eqb_spec a b) as [->|Hne].
      * rewrite IH. split; intros [rest H]; exists rest.
        -- by rewrite str_app_cons, H.
        -- rewrite str_app_cons in H. by injection H.
      * split; [done|]. intros [rest H]. rewrite str_app_cons in H. by injection H.
Qed.

Lemma contains_spec sub s :
  Py.contains sub s = true ↔ ∃ before after, s = before +:+ sub +:+ after.
Proof.
  induction s as [|c s IH].
  - simpl. rewrite orb_false_r, startswith_spec. split.
    + intros [rest H]. by exists EmptyString, rest.
    + intros ([|b before] & after & H).
      * by exists after.
      * by rewrite str_app_cons in H.
  - change (Py.contains sub (String c s))
      with (Py.startswith sub (String c s) || Py.contains sub s).
    rewrite orb_true_iff, startswith_spec, IH. split.
    + intros [[rest H]|(before & after & H)].
      * by exists EmptyString, rest.
      * exists (String c before), after. by rewrite str_app_cons, H.
    + intros ([|b before] & after & H).
      * left. by exists after.
      * right. rewrite str_app_cons in H. injection H as _ H. by exists before, after.
Qed.

Lemma no_newline_cons c s : no_newline (String c s) ↔ Re.dot c = true ∧ no_newline s.
Proof.
  unfold no_newline, Re.dot. simpl.
  destruct (Ascii.eqb c Re.newline); simpl; intuition congruence.
Qed.

Lemma no_newline_empty : no_newline EmptyString.
Proof. reflexivity. Qed.

Lemma bracket_tail_spec s :
  Re.bracket_tail s = true
  ↔ ∃ x rest, s = x +:+ "]" +:+ "." +:+ rest ∧ no_newline x.
Proof.
  induction s as [|c s IH].
  - split; [done|]. intros ([|??] & rest & H & _); by inversion H.
  - change (Re.bracket_tail (String c s))
      with ((Ascii.eqb c "]" && Py.startswith "." s) || (Re.dot c && Re.bracket_tail s)).
    rewrite orb_true_iff, !andb_true_iff, ascii_eqb_true, startswith_spec, IH.
    split.
    + intros [[-> [rest ->]]|[Hd (x & rest & -> & Hx)]].
      * exists EmptyString, rest. split; [reflexivity|apply no_newline_empty].
      * exists (String c x), rest. split; [by rewrite str_app_cons|].
        by apply no_newline_cons.
    + intros ([|b x] & rest & H & Hx).
      * left. rewrite str_app_empty_l in H. injection H as -> ->. split; [done|by eexists].
      * right. rewrite str_app_cons in H. injection H as -> ->.
        apply no_newline_cons in Hx as [Hd Hx]. split; [done|by eexists _, _].
Qed.

Lemma after_group_spec s :
  Re.after_group s = true
  ↔ ∃ br rest, s = br +:+ "." +:+ rest ∧ bracket_group br.
Proof.
  destruct s as [|c s].
  - split; [done|]. intros (br & rest & H & Hb).
    destruct Hb; by inversion H.
  - simpl. rewrite orb_true_iff, andb_true_iff, !ascii_eqb_true, bracket_tail_spec.
    split.
    + intros [[-> (x & rest & -> & Hx)]| ->].
      * exists ("[" +:+ x +:+ "]"), rest. split; [|by constructor].
        by rewrite !str_app_assoc.
      * exists EmptyString, s. split; [reflexivity|constructor].
    + intros (br & rest & H & Hb). destruct Hb as [|x Hx].
      * right. rewrite str_app_empty_l in H. by injection H.
      * left. rewrite !str_app_assoc in H. rewrite str_app_cons in H.
        injection H as -> ->. split; [done|]. by exists x, rest.
Qed.

Lemma lazy_group_eq s :
  Re.lazy_group s
  = if Re.after_group s then Some EmptyString
    else match s with
         | String c s' => if Re.dot c then String c <$> Re.lazy_group s' else None
         | EmptyString => None
         end.
Proof. by destruct s. Qed.

(** What [lazy_group] captures is followed by the rest of the pattern. *)
Lemma lazy_group_sound s g :
  Re.lazy_group s = Some g →
  ∃ br rest, s = g +:+ br +:+ "." +:+ rest ∧ no_newline g ∧ bracket_group br.
Proof.
  revert g. induction s as [|c s IH]; intros g; rewrite lazy_group_eq.
  - simpl. discriminate.
  - destruct (Re.after_group (String c s)) eqn:Ha.
    + intros [= <-]. apply after_group_spec in Ha as (br & rest & H & Hb).
      exists br, rest. split; [by rewrite str_app_empty_l|].
      split; [apply no_newline_empty|done].
    + destruct (Re.dot c) eqn:Hd; [|discriminate].
      destruct (Re.lazy_group s) as [g0|]; [|discriminate].
      intros [= <-]. destruct (IH g0 eq_refl) as (br & rest & -> & Hg & Hb).
      exists br, rest. split; [by rewrite str_app_cons|].
      split; [by apply no_newline_cons|done].
Qed.

(** Wherever the pattern can continue, [lazy_group] finds a capture,
    and none is shorter. *)
Lemma lazy_group_complete g br rest :
  no_newline g → bracket_group br →
  ∃ g0, Re.lazy_group (g +:+ br +:+ "." +:+ rest) = Some g0
        ∧ String.length g0 ≤ String.length g.
Proof.
  intros Hg Hb. induction g as [|c g IH]; rewrite lazy_group_eq.
  - rewrite str_app_empty_l.
    rewrite (proj2 (after_group_spec (br +:+ "." +:+ rest))) by by exists br, rest.
    by exists EmptyString.
  - destruct (Re.after_group _); [exists EmptyString; simpl; split; [done|lia]|].
    rewrite str_app_cons. apply no_newline_cons in Hg as [Hd Hg]. rewrite Hd.
    destruct (IH Hg) as (g0 & -> & Hl). exists (String c g0). simpl. split; [done|lia].
Qed.

Lemma app_same_length a b a' b' :
  a +:+ b = a' +:+ b' → String.length a = String.length a' → a = a' ∧ b = b'.
Proof.
  revert a'. induction a as [|c a IH]; intros [|c' a'] H Hl; try discriminate Hl.
  - done.
  - rewrite !str_app_cons in H. injection H as -> H. injection Hl as Hl.
    destruct (IH a' H Hl) as [-> ->]. done.
Qed.

(** [release_re_search] reports the capture at the leftmost '-' where
    the pattern matches. *)
Lemma release_re_search_sound s g :
  Re.release_re_search s = Some g →
  ∃ pre t, s = pre +:+ "-" +:+ t ∧ Re.lazy_group t = Some g
           ∧ ∀ pre' t', s = pre' +:+ "-" +:+ t' →
               String.length pre' < String.length pre → Re.lazy_group t' = None.
Proof.
  induction s as [|c s IH]; [discriminate|]. simpl.
  destruct (Ascii.eqb_spec c "-") as [->|Hc].
  - destruct (Re.lazy_group s) as [g0|] eqn:Hg.
    + intros [= <-]. exists EmptyString, s. split; [done|]. split; [done|].
      intros pre' t' _ Hl. simpl in Hl. lia.
    + intros Hs. destruct (IH Hs) as (pre & t & -> & Ht & Hleft).
      exists (String "-" pre), t. split; [done|]. split; [done|].
      intros [|c' pre'] t' H Hl.
      * norm_app in H. injection H as <-. done.
      * rewrite str_app_cons in H. injection H as _ H.
        apply (Hleft pre' t' H). simpl in Hl. lia.
  - intros Hs. destruct (IH Hs) as (pre & t & -> & Ht & Hleft).
    exists (String c pre), t. split; [done|]. split; [done|].
    intros [|c' pre'] t' H Hl.
    + rewrite str_app_empty_l in H. by injection H.
    + rewrite str_app_cons in H. injection H as _ H.
      apply (Hleft pre' t' H). simpl in Hl. lia.
Qed.

Lemma release_re_search_none s :
  Re.release_re_search s = None →
  ∀ pre t, s = pre +:+ "-" +:+ t → Re.lazy_group t = None.
Proof.
  induction s as [|c s IH]; intros Hs pre t H.
  - destruct pre; by inversion H.
  - simpl in Hs. destruct pre as [|c' pre].
    + norm_app in H. injection H as -> ->. simpl in Hs.
      by destruct (Re.lazy_group t).
    + rewrite str_app_cons in H. injection H as -> ->.
      apply (λ Hn, IH Hn pre t eq_refl).
      destruct (Ascii.eqb c' "-"); [|done]. by destruct (Re.lazy_group _).
Qed.

Lemma release_match_lazy s pre g :
  release_match s pre g →
  ∃ t g0, s = pre +:+ "-" +:+ t ∧ Re.lazy_group t = Some g0
          ∧ String.length g0 ≤ String.length g.
Proof.
  intros (br & rest & -> & Hg & Hb).
  destruct (lazy_group_complete g br rest Hg Hb) as (g0 & H0 & Hl).
  by exists (g +:+ br +:+ "." +:+ rest), g0.
Qed.

Lemma release_re_search_first s g :
  Re.release_re_search s = Some g → first_release_match s g.
Proof.
  intros Hs. destruct (release_re_search_sound s g Hs) as (pre & t & -> & Ht & Hleft).
  exists pre. split.
  - destruct (lazy_group_sound t g Ht) as (br & rest & -> & Hg & Hb).
    by exists br, rest.
  - intros pre' g' Hm.
    destruct (release_match_lazy _ _ _ Hm) as (t' & g0 & Hs' & Ht' & Hl).
    destruct (Nat.lt_trichotomy (String.length pre) (String.length pre'))
      as [Hlt|[Heq|Hgt]].
    + by left.
    + right. split; [done|].
      destruct (app_same_length _ _ _ _ Hs' Heq) as [_ Htt].
      norm_app in Htt. injection Htt as <-. rewrite Ht in Ht'. injection Ht' as <-. done.
    + rewrite (Hleft pre' t' Hs' Hgt) in Ht'. discriminate.
Qed.

Lemma first_release_match_unique s g1 g2 :
  first_release_match s g1 → first_release_match s g2 → g1 = g2.
Proof.
  intros (pre1 & Hm1 & Hmin1) (pre2 & Hm2 & Hmin2).
  pose proof (Hmin1 _ _ Hm2) as H12. pose proof (Hmin2 _ _ Hm1) as H21.
  assert (String.length pre1 = String.length pre2 ∧ String.length g1 = String.length g2)
    as [Hp Hg] by lia.
  destruct Hm1 as (br1 & rest1 & E1 & _). destruct Hm2 as (br2 & rest2 & E2 & _).
  rewrite E1 in E2.
  destruct (app_same_length _ _ _ _ E2 Hp) as [_ E3].
  norm_app in E3. injection E3 as E3.
  by destruct (app_same_length _ _ _ _ E3 Hg).
Qed.

(** [release_re.search] is the leftmost, shortest match. *)
Lemma release_re_search_spec s g :
  Re.release_re_search s = Some g ↔ first_release_match s g.
Proof.
  split; [apply release_re_search_first|].
  intros Hf. destruct (Re.release_re_search s) as [g1|] eqn:Hs.
  - f_equal. apply (first_release_match_unique s); [|done].
    by apply release_re_search_first.
  - destruct Hf as (pre & Hm & _).
    destruct (release_match_lazy _ _ _ Hm) as (t & g0 & E & Ht & _).
    rewrite (release_re_search_none s Hs pre t E) in Ht. discriminate.
Qed.

End Pattern.

Section Presenter.
Context `{C : Collaborators}.

Lemma has_sync_search filename_ item :
  has_sync (subs_list_item filename_ item)
  = match Re.release_re_search filename_ with
    | Some group1 => Py.contains (Py.lower group1) (Py.lower (SubtitleItem.version item))
    | None => false
    end.
Proof.
  unfold subs_list_item.
  destruct (Re.release_re_search filename_) as [g|];
    [destruct (Py.contains _ _)|]; by destruct (SubtitleItem.hi item).
Qed.

(** C2 (as the code has it): the presented entry carries the 'sync'
    marker if and only if [release_re] matches somewhere in the file
    name and the text it captures appears, case-insensitively, as a
    substring of the subtitle's version description.  The captured
    text is the shortest run of characters (newlines excluded) after
    the leftmost '-' at which the pattern matches, such that an
    optional bracketed part and a '.' follow; it may be empty, and an
    empty text appears in every description. *)
Theorem C2_sync_marker filename_ (item : SubtitleItem.t) :
  has_sync (subs_list_item filename_ item) = true
  ↔ ∃ tag, ReSpec.first_release_match filename_ tag
           ∧ ∃ before after,
               Py.lower (SubtitleItem.version item) = before +:+ Py.lower tag +:+ after.
Proof.
  rewrite has_sync_search. split.
  - destruct (Re.release_re_search filename_) as [g|] eqn:Hs; [|discriminate].
    intros Hc. exists g. split; [by apply release_re_search_spec|].
    by apply contains_spec.
  - intros (tag & Hf & Hc). apply release_re_search_spec in Hf. rewrite Hf.
    by apply contains_spec.
Qed.

(** In a file name with one '-' and a '.' after it, the captured text
    is what stands between them, as long as it holds no '[' or
    newline. *)
Lemma release_tag_between pre tag rest :
  Py.has_char "-" pre = false →
  Py.has_char "." tag = false → Py.has_char "[" tag = false →
  ReSpec.no_newline tag →
  Re.release_re_search (pre +:+ "-" +:+ tag +:+ "." +:+ rest) = Some tag.
Proof.
  intros Hpre Hdot Hbr Hnl. induction pre as [|c pre IH].
  - rewrite str_app_empty_l, str_app_cons, str_app_empty_l. simpl.
    assert (Re.lazy_group (tag +:+ "." +:+ rest) = Some tag) as ->; [|done].
    clear Hpre. induction tag as [|c tag IH]; [done|].
    rewrite str_app_cons, lazy_group_eq. simpl in *.
    apply orb_false_iff in Hdot as [Hd1 Hd2]. apply orb_false_iff in Hbr as [Hb1 Hb2].
    apply no_newline_cons in Hnl as [Hn1 Hn2].
    rewrite Hd1, Hb1, Hn1. simpl. by rewrite IH.
  - rewrite str_app_cons. simpl in *. apply orb_false_iff in Hpre as [Hc Hpre].
    rewrite Hc. by apply IH.
Qed.

End Presenter.

(** C2, as stated, fails twice over: the pattern starts at the first
    '-' of the name, not the last, and an empty captured text still sets
    the marker. *)
Lemma C2_counterexample :
  let item := {| SubtitleItem.language := "English";
                 SubtitleItem.version := "HDTV.x264-LOL";
                 SubtitleItem.hi := false; SubtitleItem.link := "/original/1/0" |} in
  (Spec.release_tag "Spider-Man.S01E01.HDTV-LOL.mkv" = "LOL"
   ∧ Spec.sync_expected "Spider-Man.S01E01.HDTV-LOL.mkv" item = true
   ∧ Re.release_re_search "Spider-Man.S01E01.HDTV-LOL.mkv" = Some "Man"
   ∧ has_sync (subs_list_item (C := Double.found) "Spider-Man.S01E01.HDTV-LOL.mkv" item)
     = false)
  ∧ (Spec.release_tag "Show.S01E02-.mkv" = EmptyString
     ∧ Spec.sync_expected "Show.S01E02-.mkv" item = false
     ∧ has_sync (subs_list_item (C := Double.found) "Show.S01E02-.mkv" item) = true).
Proof. repeat split; vm_compute; reflexivity. Qed.

(** * Further properties of [core.py] *)

(** ** The presenter *)

Section PresenterMore.
Context `{C : Collaborators}.

Lemma count_entries_presented episode_url filename_ (l : list SubtitleItem.t) :
  count_events is_entry (subs_entry episode_url filename_ <$> l) = length l.
Proof.
  induction l as [|item l IH]; [reflexivity|].
  unfold count_events, only_events in *. simpl. by f_equal.
Qed.

Lemma count_folders_presented episode_url filename_ (l : list SubtitleItem.t) :
  count_events is_folder_entry (subs_entry episode_url filename_ <$> l) = 0.
Proof. induction l as [|item l IH]; [reflexivity|exact IH]. Qed.

Lemma hearing_imp_marker filename_ item :
  has_hearing_imp (subs_list_item filename_ item) = SubtitleItem.hi item.
Proof.
  unfold subs_list_item.
  destruct (Re.release_re_search filename_) as [g|];
    [destruct (Py.contains _ _)|]; by destruct (SubtitleItem.hi item).
Qed.

(** X1: [display_subs] never fails and adds exactly one entry per
    subtitle, in the order of the list and none of them a folder; the
    entry of a subtitle shows its language and version, carries the
    'hearing_imp' marker exactly when the subtitle is for the hearing
    impaired, whatever the file name, and links back to the plugin with
    the subtitle's link, the episode page and the file name. *)
Theorem X1_one_entry_per_subtitle subs_list episode_url filename_ (w : World) :
  let run := display_subs subs_list episode_url filename_ w in
  fst run = Return tt
  ∧ length (new_events w run) = length subs_list
  ∧ count_events is_entry (new_events w run) = length subs_list
  ∧ count_events is_folder_entry (new_events w run) = 0
  ∧ ∀ i item, subs_list !! i = Some item →
      ∃ li, new_events w run !! i
            = Some (AddDirectoryItem handle
                      (argv0 +:+ "?" +:+ urlencode (download_query episode_url filename_ item))
                      li false)
            ∧ label li = SubtitleItem.language item
            ∧ label2 li = SubtitleItem.version item
            ∧ thumbnailImage li = convertLanguage (SubtitleItem.language item)
            ∧ has_hearing_imp li = SubtitleItem.hi item.
Proof.
  intros run. subst run. rewrite display_subs_run, new_events_log.
  split; [reflexivity|]. split; [by rewrite length_fmap|].
  split; [apply count_entries_presented|]. split; [apply count_folders_presented|].
  intros i item Hi. exists (subs_list_item filename_ item).
  rewrite list_lookup_fmap, Hi. split; [reflexivity|].
  split; [|split; [|split]]; [| | |apply hearing_imp_marker];
    unfold subs_list_item;
    (destruct (Re.release_re_search filename_) as [g|];
      [destruct (Py.contains _ _)|]); by destruct (SubtitleItem.hi item).
Qed.

Lemma has_char_app c s t : Py.has_char c (s +:+ t) = Py.has_char c s || Py.has_char c t.
Proof.
  induction s as [|a s IH]; [reflexivity|].
  rewrite str_app_cons. simpl. by rewrite IH, orb_assoc.
Qed.

Lemma has_char_middle c s t : Py.has_char c (s +:+ String c EmptyString +:+ t) = true.
Proof.
  rewrite has_char_app, str_app_cons. simpl. rewrite Ascii.eqb_refl. apply orb_true_r.
Qed.

(** X2: in a release name with no '-' before the tag, the text between
    that '-' and the following '.', or the following bracketed part that
    is itself followed by '.', is what [release_re] captures, provided
    the text holds no '.', '[' or newline; the entry is then marked
    'sync' exactly when that text, lower-cased, occurs in the lower-cased
    version description. *)
Theorem X2_release_tag_of_release_name pre tag br rest (item : SubtitleItem.t) :
  Py.has_char "-" pre = false →
  Py.has_char "." tag = false → Py.has_char "[" tag = false →
  ReSpec.no_newline tag → ReSpec.bracket_group br →
  let filename_ := pre +:+ "-" +:+ tag +:+ br +:+ "." +:+ rest in
  Re.release_re_search filename_ = Some tag
  ∧ has_sync (subs_list_item filename_ item)
    = Py.contains (Py.lower tag) (Py.lower (SubtitleItem.version item)).
Proof.
  intros Hpre Hdot Hbr Hnl Hgroup filename_.
  assert (Hs : Re.release_re_search filename_ = Some tag).
  { subst filename_. induction pre as [|c pre IH].
    - rewrite str_app_empty_l, str_app_cons, str_app_empty_l. simpl.
      assert (Re.lazy_group (tag +:+ br +:+ "." +:+ rest) = Some tag) as ->; [|done].
      clear Hpre. induction tag as [|c tag IH].
      + rewrite str_app_empty_l, lazy_group_eq.
        by rewrite (proj2 (after_group_spec (br +:+ "." +:+ rest)))
          by (by exists br, rest).
      + rewrite str_app_cons, lazy_group_eq. simpl in *.
        apply orb_false_iff in Hdot as [Hd1 Hd2]. apply orb_false_iff in Hbr as [Hb1 Hb2].
        apply no_newline_cons in Hnl as [Hn1 Hn2].
        rewrite Hd1, Hb1, Hn1. simpl. by rewrite IH.
    - rewrite str_app_cons. simpl in *. apply orb_false_iff in Hpre as [Hc Hpre].
      rewrite Hc. by apply IH. }
  split; [exact Hs|]. by rewrite has_sync_search, Hs.
Qed.

(** X3: a file name without '-' or without '.' is never matched by
    [release_re], so none of its entries is marked 'sync'. *)
Theorem X3_no_dash_or_dot_no_sync filename_ (item : SubtitleItem.t) :
  Py.has_char "-" filename_ = false ∨ Py.has_char "." filename_ = false →
  Re.release_re_search filename_ = None
  ∧ has_sync (subs_list_item filename_ item) = false.
Proof.
  intros Hno.
  assert (Hs : Re.release_re_search filename_ = None).
  { destruct (Re.release_re_search filename_) as [g|] eqn:Hs; [|done].
    apply release_re_search_first in Hs as (pre & (br & rest & -> & _) & _).
    destruct Hno as [Hno|Hno].
    - by rewrite (has_char_middle "-" pre (g +:+ br +:+ "." +:+ rest)) in Hno.
    - assert (pre +:+ "-" +:+ g +:+ br +:+ "." +:+ rest
              = (pre +:+ "-" +:+ g +:+ br) +:+ "." +:+ rest) as E
        by (by rewrite !str_app_assoc).
      rewrite E in Hno. by rewrite (has_char_middle "." _ rest) in Hno. }
  split; [exact Hs|]. by rewrite has_sync_search, Hs.
Qed.

End PresenterMore.

Lemma X2_witness :
  Re.release_re_search "Show.S01E02.HDTV.x264-LOL[ettv].mkv" = Some "LOL".
Proof.
  refine (proj1 (X2_release_tag_of_release_name (C := Double.found)
                   "Show.S01E02.HDTV.x264" "LOL" "[ettv]" "mkv" Scenario.english
                   _ _ _ _ _)); try reflexivity.
  apply (ReSpec.bracket_present "ettv"). reflexivity.
Defined.

Lemma X3_witness :
  has_sync (subs_list_item (C := Double.found) "Show 1x02.mkv" Scenario.english) = false.
Proof.
  refine (proj2 (X3_no_dash_or_dot_no_sync (C := Double.found) "Show 1x02.mkv"
                   Scenario.english _)).
  left. reflexivity.
Defined.


(** ** Identity from the library *)

Section LibraryMore.
Context `{C : Collaborators}.

Lemma two_digit_table :
  forallb (fun k => let text := Py.zfill 2 (Py.str_of_int (Z.of_nat k)) in
                    (String.length text =? 2)
                    && bool_decide (read_int text = Some (Z.of_nat k)))
          (seq 0 100) = true.
Proof. vm_compute. reflexivity. Qed.

Lemma two_digits n :
  (0 ≤ n ≤ 99)%Z →
  String.length (Py.zfill 2 (Py.str_of_int n)) = 2
  ∧ read_int (Py.zfill 2 (Py.str_of_int n)) = Some n.
Proof.
  intros Hn. pose proof two_digit_table as Ht.
  rewrite forallb_forall in Ht. specialize (Ht (Z.to_nat n)).
  rewrite Z2Nat.id in Ht by lia.
  assert (Hin : In (Z.to_nat n) (seq 0 100)) by (apply in_seq; lia).
  apply Ht in Hin. apply andb_true_iff in Hin as [H1 H2].
  apply Nat.eqb_eq in H1. apply bool_decide_eq_true in H2. done.
Qed.

(** X4: for an item with a library title, with the 'use_filename'
    setting off, identity resolution cannot fail and calls nothing: it
    returns the library title as it is; season and episode numbers
    between 0 and 99 become texts of exactly two characters that read
    back as those numbers; and when the extension of the played file is a
    recognized video extension, in any letter case, the file's base name
    is kept as the file name. *)
Theorem X4_library_identity (w : World) :
  ¬ prefers_filename →
  ∃ ed, extract_episode_data w = (Return ed, w)
        ∧ showname ed = np_showtitle get_now_played
        ∧ ((0 ≤ np_season get_now_played ≤ 99)%Z →
           String.length (season ed) = 2
           ∧ read_int (season ed) = Some (np_season get_now_played))
        ∧ ((0 ≤ np_episode get_now_played ≤ 99)%Z →
           String.length (episode ed) = 2
           ∧ read_int (episode ed) = Some (np_episode get_now_played))
        ∧ (Py.lower (snd (Py.splitext base_filename)) ∈ VIDEOFILES →
           filename ed = base_filename).
Proof.
  intros Hn. eexists. split; [by apply extract_from_library|]. simpl.
  split; [reflexivity|]. split; [apply two_digits|]. split; [apply two_digits|].
  intros Hext. by rewrite bool_decide_eq_true_2.
Qed.

End LibraryMore.

Lemma X4_witness :
  ∃ ed, extract_episode_data (C := Scenario.from_library_video) Double.empty_world
        = (Return ed, Double.empty_world)
        ∧ showname ed = "Show".
Proof.
  destruct (X4_library_identity (C := Scenario.from_library_video) Double.empty_world)
    as (ed & He & Hs & _).
  - intros [H|H]; discriminate H.
  - exists ed. split; [exact He|exact Hs].
Defined.


(** ** The search flow, case by case *)

Section SearchMore.
Context `{C : Collaborators}.

Lemma search_subs_query_error params languages_param (w w1 : World) ed e :
  params !! "languages" = Some languages_param →
  extract_episode_data w = (Return ed, w1) →
  fst (search_query params ed w1) = Raise e →
  search_subs params w = (Raise e, w1).
Proof.
  intros Hl He Hq. unfold search_subs.
  unfold bind at 1. rewrite (getitem_some _ _ _ _ Hl).
  unfold try_except_else at 1. rewrite He. unfold bind at 1.
  pose proof (search_query_pure params ed w1) as Hp.
  destruct (search_query params ed w1) as [o w2]. simpl in Hq, Hp. by subst.
Qed.

(** Once the query is there and not empty, the provider is asked, and
    what follows has one of the shapes of [after_search]. *)
Lemma search_subs_requested params languages_param (w w1 : World) ed query :
  params !! "languages" = Some languages_param →
  extract_episode_data w = (Return ed, w1) →
  fst (search_query params ed w1) = Return query →
  query ≠ EmptyString →
  ∃ o tail,
    search_subs params w
    = (o, log (SearchEpisode query (requested_languages languages_param) :: tail) w1)
    ∧ after_search (filename ed) tail.
Proof.
  intros Hl He Hq Hne.
  destruct (search_episode query (requested_languages languages_param))
    as [[subtitles episode_url|cands]|e] eqn:Hr.
  - rewrite (search_subs_single _ _ _ _ _ _ _ _ Hl He Hq Hne Hr).
    eexists _, _. split; [reflexivity|constructor].
  - rewrite (search_subs_candidates _ _ _ _ _ _ _ Hl He Hq Hne Hr). simpl.
    destruct (0 <=? _)%Z.
    + destruct (cands !! _) as [item|].
      * destruct (get_episode _ _) as [[subtitles episode_url|l']|e];
          [| |destruct e]; rewrite ?log_log; simpl;
          eexists _, _; (split; [reflexivity|]);
          repeat constructor.
      * eexists _, _. split; [reflexivity|]. repeat constructor.
    + eexists _, _. split; [reflexivity|]. repeat constructor.
  - rewrite (search_subs_failed _ _ _ _ _ _ _ Hl He Hq Hne Hr).
    destruct e; rewrite ?log_log; simpl; eexists _, _;
      (split; [reflexivity|]); constructor.
Qed.

(** Every run of the search flow leaves the world as it was, but for a
    trace of one of the shapes of [search_trace]. *)
Lemma search_subs_protocol params (w : World) :
  ∃ o evs, search_subs params w = (o, log evs w) ∧ search_trace evs.
Proof.
  destruct (params !! "languages") as [l|] eqn:Hl.
  2:{ rewrite (search_subs_no_languages _ _ Hl). exists (Raise (KeyError "languages")), [].
      rewrite log_nil. split; [done|constructor]. }
  destruct (extract_outcome w) as [[ed He]|He].
  - destruct (fst (search_query params ed w)) as [query|e] eqn:Hq.
    + destruct (String.eqb_spec query EmptyString) as [->|Hne].
      * rewrite (search_subs_resolved _ _ _ _ _ _ Hl He Hq). simpl.
        exists (Return tt), []. rewrite log_nil. split; [done|constructor].
      * destruct (search_subs_requested _ _ _ _ _ _ Hl He Hq Hne) as (o & tail & -> & Ht).
        eexists _, _. split; [reflexivity|]. by econstructor.
    + rewrite (search_subs_query_error _ _ _ _ _ _ Hl He Hq).
      exists (Raise e), []. rewrite log_nil. split; [done|constructor].
  - unfold search_subs, bind. rewrite (getitem_some _ _ _ _ Hl).
    unfold try_except_else. rewrite He. simpl.
    eexists _, _. split; [reflexivity|constructor].
Qed.

(** X5: in an automatic search ('action' is 'search') with the
    episode identified, the provider is always asked, first of all, for
    the normalized show name, a space, and season 'x' episode, in the
    languages of the 'languages' parameter; a 'searchstring' parameter
    plays no part. *)
Theorem X5_automatic_search_query params languages_param (w w1 : World) ed :
  params !! "action" = Some "search" →
  params !! "languages" = Some languages_param →
  extract_episode_data w = (Return ed, w1) →
  ∃ tail,
    new_events w (search_subs params w)
    = SearchEpisode
        (normalize_showname (showname ed) +:+ " " +:+ season ed +:+ "x" +:+ episode ed)
        (requested_languages languages_param)
      :: tail.
Proof.
  intros Ha Hl He. pose proof (extract_keeps_world _ _ _ He) as ->.
  assert (Hq : fst (search_query params ed w)
               = Return (normalize_showname (showname ed) +:+ " " +:+ season ed
                           +:+ "x" +:+ episode ed)).
  { unfold search_query, bind. by rewrite (getitem_some _ _ _ _ Ha). }
  destruct (search_subs_requested _ _ _ _ _ _ Hl He Hq) as (o & tail & -> & _).
  - intros H. apply (f_equal String.length) in H.
    rewrite !str_length_app in H. simpl in H. lia.
  - exists tail. by rewrite new_events_log.
Qed.

(** X6: in a manual search (any 'action' other than 'search') the
    typed 'searchstring', when it is not empty, goes to the provider as
    it is, whatever show and episode were identified. *)
Theorem X6_manual_search_query params action languages_param typed (w w1 : World) ed :
  params !! "action" = Some action → action ≠ "search" →
  params !! "languages" = Some languages_param →
  params !! "searchstring" = Some typed → typed ≠ EmptyString →
  extract_episode_data w = (Return ed, w1) →
  ∃ tail,
    new_events w (search_subs params w)
    = SearchEpisode typed (requested_languages languages_param) :: tail.
Proof.
  intros Ha Hne Hl Hs Ht He. pose proof (extract_keeps_world _ _ _ He) as ->.
  assert (Hq : fst (search_query params ed w) = Return typed).
  { unfold search_query, bind. rewrite (getitem_some _ _ _ _ Ha).
    apply String.eqb_neq in Hne. rewrite Hne. by rewrite (getitem_some _ _ _ _ Hs). }
  destruct (search_subs_requested _ _ _ _ _ _ Hl He Hq Ht) as (o & tail & -> & _).
  exists tail. by rewrite new_events_log.
Qed.

(** X7: when the search request fails with a connection failure, the
    flow returns after exactly one connectivity notification; when it
    finds nothing, the flow returns silently; any other exception leaves
    the flow at once.  In none of these cases is anything presented or a
    dialog opened. *)
Theorem X7_search_failure params languages_param (w w1 : World) ed query e :
  params !! "languages" = Some languages_param →
  extract_episode_data w = (Return ed, w1) →
  fst (search_query params ed w1) = Return query →
  query ≠ EmptyString →
  search_episode query (requested_languages languages_param) = Raise e →
  let request := SearchEpisode query (requested_languages languages_param) in
  fst (search_subs params w)
  = match e with ConnectionError | SubsSearchError => Return tt | _ => Raise e end
  ∧ new_events w (search_subs params w)
    = match e with
      | ConnectionError => [request; connectivity_notification]
      | _ => [request]
      end.
Proof.
  intros Hl He Hq Hne Hr request. pose proof (extract_keeps_world _ _ _ He) as ->.
  rewrite (search_subs_failed _ _ _ _ _ _ _ Hl He Hq Hne Hr).
  destruct e; rewrite ?log_log, new_events_log; done.
Qed.

(** X8: when the provider offers candidates and the dialog answers
    with position [i] of the list, the provider is asked once more, for
    the link of candidate [i] and in the same languages; a single
    episode in return is presented under the resolved file name, a
    connection failure gives one connectivity notification, no results
    gives nothing; the flow returns in all three cases. *)
Theorem X8_chosen_candidate params languages_param (w w1 : World) ed query l i item :
  params !! "languages" = Some languages_param →
  extract_episode_data w = (Return ed, w1) →
  fst (search_query params ed w1) = Return query →
  query ≠ EmptyString →
  let languages := requested_languages languages_param in
  search_episode query languages = Return (Candidates l) →
  dialog_select (get_ui_string 32008) (EpisodeItem.title <$> l) = Z.of_nat i →
  l !! i = Some item →
  let asked := [SearchEpisode query languages;
                Select (get_ui_string 32008) (EpisodeItem.title <$> l);
                GetEpisode (EpisodeItem.link item) languages] in
  (∀ subtitles episode_url,
     get_episode (EpisodeItem.link item) languages = Return (Episode subtitles episode_url) →
     search_subs params w
     = (Return tt, log (asked ++ (subs_entry episode_url (filename ed) <$> subtitles)) w1))
  ∧ (get_episode (EpisodeItem.link item) languages = Raise ConnectionError →
     search_subs params w = (Return tt, log (asked ++ [connectivity_notification]) w1))
  ∧ (get_episode (EpisodeItem.link item) languages = Raise SubsSearchError →
     search_subs params w = (Return tt, log asked w1)).
Proof.
  intros Hl He Hq Hne languages Hr Hi Hitem asked.
  pose proof (search_subs_candidates _ _ _ _ _ _ _ Hl He Hq Hne Hr) as Hrun.
  simpl in Hrun. fold languages in Hrun. rewrite Hi in Hrun.
  assert ((0 <=? Z.of_nat i)%Z = true) as Hpos by (apply Z.leb_le; lia).
  rewrite Hpos, Nat2Z.id, Hitem in Hrun.
  split; [|split].
  - intros subtitles episode_url Hg. rewrite Hrun, Hg. by rewrite !log_log.
  - intros Hg. rewrite Hrun, Hg. by rewrite !log_log.
  - intros Hg. rewrite Hrun, Hg. by rewrite !log_log.
Qed.

Lemma count_presented (p : Event → bool) episode_url filename_ (l : list SubtitleItem.t) :
  (∀ item, p (subs_entry episode_url filename_ item) = false) →
  count_events p (subs_entry episode_url filename_ <$> l) = 0.
Proof.
  intros Hp. induction l as [|item l IH]; [reflexivity|].
  unfold count_events, only_events in *. simpl. by rewrite Hp.
Qed.

(** X9: every run of the search flow, whatever the parameters and
    whatever the collaborators answer, adds to the trace one of: nothing;
    the identity notification alone; or a search request followed by
    nothing, by a connectivity notification, by entries, or by the
    selection dialog, which in turn is followed by nothing or by one
    re-query and then nothing, a connectivity notification or entries.
    It leaves the staging directory and all files untouched. *)
Theorem X9_search_flow_protocol params (w : World) :
  ∃ evs, new_events w (search_subs params w) = evs
         ∧ search_trace evs
         ∧ staging (snd (search_subs params w)) = staging w
         ∧ elsewhere (snd (search_subs params w)) = elsewhere w.
Proof.
  destruct (search_subs_protocol params w) as (o & evs & -> & Ht).
  exists evs. by rewrite new_events_log.
Qed.

Lemma count_events_cons (p : Event → bool) ev evs :
  count_events p (ev :: evs) = Nat.b2n (p ev) + count_events p evs.
Proof. unfold count_events, only_events. simpl. by destruct (p ev). Qed.

Lemma count_events_nil (p : Event → bool) : count_events p [] = 0.
Proof. reflexivity. Qed.

Lemma tally_presented episode_url filename_ (l : list SubtitleItem.t) :
  tally (subs_entry episode_url filename_ <$> l) = (0, 0, 0, 0, 0, 0, 0).
Proof. unfold tally. by rewrite !count_presented. Qed.

Lemma after_get_tally filename_ tail :
  after_get filename_ tail →
  ∃ n, tally tail = (0, 0, 0, n, 0, 0, 0) ∧ n ≤ 1.
Proof.
  intros [| |subtitles episode_url].
  - exists 0. split; [reflexivity|lia].
  - exists 1. split; [reflexivity|lia].
  - exists 0. rewrite tally_presented. split; [reflexivity|lia].
Qed.

Lemma after_select_tally filename_ tail :
  after_select filename_ tail →
  ∃ g n, tally tail = (0, g, 0, n, 0, 0, 0) ∧ g ≤ 1 ∧ n ≤ 1.
Proof.
  intros [|link_ languages tail' Ht].
  - exists 0, 0. split; [reflexivity|lia].
  - destruct (after_get_tally _ _ Ht) as (n & E & Hn). injection E as E1 E2 E3 E4 E5 E6 E7.
    exists 1, n. unfold tally.
    rewrite !count_events_cons, E1, E2, E3, E4, E5, E6, E7. simpl.
    split; [reflexivity|lia].
Qed.

Lemma after_search_tally filename_ tail :
  after_search filename_ tail →
  ∃ g s n, tally tail = (0, g, s, n, 0, 0, 0) ∧ g ≤ 1 ∧ s ≤ 1 ∧ n ≤ 1.
Proof.
  intros [| |subtitles episode_url|heading options tail' Ht].
  - exists 0, 0, 0. split; [reflexivity|lia].
  - exists 0, 0, 1. split; [reflexivity|lia].
  - exists 0, 0, 0. rewrite tally_presented. split; [reflexivity|lia].
  - destruct (after_select_tally _ _ Ht) as (g & n & E & Hg & Hn).
    injection E as E1 E2 E3 E4 E5 E6 E7.
    exists g, 1, n. unfold tally.
    rewrite !count_events_cons, E1, E2, E3, E4, E5, E6, E7. simpl.
    split; [reflexivity|lia].
Qed.

(** X10: a run of the search flow asks the provider to search at
    most once and to fetch an episode at most once, opens at most one
    dialog, shows at most one notification, and never touches the
    staging directory, asks for a download or ends the listing. *)
Theorem X10_search_flow_bounds params (w : World) :
  let evs := new_events w (search_subs params w) in
  count_events is_search_call evs ≤ 1
  ∧ count_events is_get_call evs ≤ 1
  ∧ count_events is_select evs ≤ 1
  ∧ count_events is_notification evs ≤ 1
  ∧ count_events is_vfs_call evs = 0
  ∧ count_events is_download_call evs = 0
  ∧ count_events is_end evs = 0.
Proof.
  intros evs. subst evs.
  destruct (search_subs_protocol params w) as (o & evs & -> & Ht).
  rewrite new_events_log.
  destruct Ht as [| |ed query languages tail Ht].
  - rewrite !count_events_nil. repeat split; lia.
  - rewrite !count_events_cons, !count_events_nil. simpl. repeat split; lia.
  - destruct (after_search_tally _ _ Ht) as (g & s & n & E & Hg & Hs & Hn).
    injection E as E1 E2 E3 E4 E5 E6 E7.
    rewrite !count_events_cons, E1, E2, E3, E4, E5, E6, E7. simpl. repeat split; lia.
Qed.

End SearchMore.

Lemma X5_witness :
  ∃ tail,
    new_events Double.empty_world
      (search_subs (C := Double.found)
         (dict (Double.plain_qsl "action=search&languages=English,French"))
         Double.empty_world)
    = SearchEpisode (C := Double.found) "Show 01x02" ["English"; "French"] :: tail.
Proof.
  refine (X5_automatic_search_query (C := Double.found) _ "English,French"
            Double.empty_world Double.empty_world
            {| showname := "Show"; season := "01"; episode := "02";
               filename := "Show.S01E02.HDTV-LOL.mkv" |} _ _ _);
    vm_compute; reflexivity.
Defined.

Lemma X6_witness :
  ∃ tail,
    new_events Double.empty_world
      (search_subs (C := Double.found)
         (dict (Double.plain_qsl "action=manualsearch&languages=English&searchstring=the show"))
         Double.empty_world)
    = SearchEpisode (C := Double.found) "the show" ["English"] :: tail.
Proof.
  refine (X6_manual_search_query (C := Double.found) _ "manualsearch" "English" "the show"
            Double.empty_world Double.empty_world
            {| showname := "Show"; season := "01"; episode := "02";
               filename := "Show.S01E02.HDTV-LOL.mkv" |} _ _ _ _ _ _);
    try (vm_compute; reflexivity); discriminate.
Defined.

Lemma X7_witness :
  new_events Double.empty_world
    (search_subs (C := Double.offline)
       (dict (Double.plain_qsl "action=search&languages=English")) Double.empty_world)
  = [SearchEpisode (C := Double.offline) "Show 01x02"
       (["English"] : @Langs Double.offline);
     connectivity_notification].
Proof.
  refine (proj2 (X7_search_failure (C := Double.offline) _ "English"
            Double.empty_world Double.empty_world
            {| showname := "Show"; season := "01"; episode := "02";
               filename := "Show.S01E02.HDTV-LOL.mkv" |} "Show 01x02" ConnectionError
            _ _ _ _ _));
    try (vm_compute; reflexivity); discriminate.
Defined.

Lemma X8_witness :
  search_subs (C := Scenario.chosen_without_subs)
    (dict (Double.plain_qsl "action=search&languages=English")) Double.empty_world
  = (Return tt,
     log [SearchEpisode (C := Scenario.chosen_without_subs) "Show 01x02"
            (["English"] : @Langs Scenario.chosen_without_subs);
          Select "32008" ["Show - 01x02"; "Show (US) - 01x02"];
          GetEpisode "/serie/Show_US/1/2/y"
            (["English"] : @Langs Scenario.chosen_without_subs)] Double.empty_world).
Proof.
  destruct (X8_chosen_candidate (C := Scenario.chosen_without_subs)
              (dict (Double.plain_qsl "action=search&languages=English")) "English"
              Double.empty_world Double.empty_world
              {| showname := "Show"; season := "01"; episode := "02";
                 filename := "Show.S01E02.HDTV-LOL.mkv" |} "Show 01x02"
              Double.candidate_items 1
              {| EpisodeItem.title := "Show (US) - 01x02";
                 EpisodeItem.link := "/serie/Show_US/1/2/y" |})
    as (_ & _ & H);
    [vm_compute; reflexivity | vm_compute; reflexivity | vm_compute; reflexivity
    | discriminate | vm_compute; reflexivity | vm_compute; reflexivity
    | reflexivity | ].
  exact (H eq_refl).
Defined.


(** ** The download flow, further *)

Section DownloadMore.
Context `{C : Collaborators}.

(** X11: whatever the provider answers, a download makes exactly one
    provider request, for the given link and referer and the staging
    path of the file name, opens no dialog, shows at most one
    notification, adds at most one entry and does not end the listing;
    an exception leaves it only if the provider raised it; when the
    staging path lies below the staging directory, files elsewhere are
    left as they were. *)
Theorem X11_download_asks_once link referrer filename_ (w : World) :
  let run := download_subs link referrer filename_ w in
  only_events is_provider_call (new_events w run)
  = [DownloadSubs link referrer (staging_path filename_)]
  ∧ count_events is_select (new_events w run) = 0
  ∧ count_events is_notification (new_events w run) ≤ 1
  ∧ count_events is_entry (new_events w run) ≤ 1
  ∧ count_events is_end (new_events w run) = 0
  ∧ (∀ e, fst run = Raise e → fetch_subs link referrer = Raise e)
  ∧ (below temp (staging_path filename_) = true →
     elsewhere (snd run) = elsewhere w).
Proof.
  intros run. subst run. rewrite download_subs_events.
  split; [|split; [|split; [|split; [|split; [|split]]]]].
  - unfold only_events, staging_prelude.
    destruct (staging w); destruct (fetch_subs link referrer) as [b|e];
      try destruct e; reflexivity.
  - unfold count_events. rewrite prelude_quiet by reflexivity.
    destruct (fetch_subs link referrer) as [b|e]; [|destruct e]; reflexivity.
  - unfold count_events. rewrite prelude_quiet by reflexivity.
    destruct (fetch_subs link referrer) as [b|e]; [|destruct e]; simpl; lia.
  - unfold count_events. rewrite prelude_quiet by reflexivity.
    destruct (fetch_subs link referrer) as [b|e]; [|destruct e]; simpl; lia.
  - unfold count_events. rewrite prelude_quiet by reflexivity.
    destruct (fetch_subs link referrer) as [b|e]; [|destruct e]; reflexivity.
  - intros e. rewrite download_subs_outcome.
    destruct (fetch_subs link referrer) as [b|e']; [discriminate|].
    destruct e'; (discriminate || by intros [= <-]).
  - intros Hb. rewrite download_subs_run.
    destruct (fetch_subs link referrer) as [b|e]; [|by destruct e].
    simpl. unfold stored. by rewrite Hb.
Qed.

(** X12: a file name that starts with '/' and has more than three
    characters makes the staging path that very name with its last
    three characters replaced by [srt]: the staging directory is left
    out of the path.  When that path is not below the staging directory,
    a successful download leaves the staging directory empty, stores the
    subtitles at that path, and the result entry points there. *)
Theorem X12_absolute_name_escapes_staging link referrer filename_ bytes (w : World) :
  Py.startswith "/" (subs_name filename_) = true →
  below temp (subs_name filename_) = false →
  fetch_subs link referrer = Return bytes →
  let run := download_subs link referrer filename_ w in
  staging_path filename_ = subs_name filename_
  ∧ staging (snd run) = Some ∅
  ∧ elsewhere (snd run) = <[subs_name filename_ := bytes]> (elsewhere w)
  ∧ only_events is_entry (new_events w run) = [staged_entry (subs_name filename_)].
Proof.
  intros Habs Hout Hf run. subst run.
  assert (Hp : staging_path filename_ = subs_name filename_).
  { unfold staging_path, Py.join. by rewrite Habs. }
  split; [exact Hp|].
  rewrite download_subs_staging, download_subs_events, download_subs_run, Hf, Hp.
  rewrite Hout. split; [reflexivity|]. split.
  - simpl. unfold stored. by rewrite Hout.
  - unfold only_events, staging_prelude. by destruct (staging w).
Qed.

Lemma startswith_slash_app stem t :
  Py.startswith "/" stem = false → Py.startswith "/" t = false →
  Py.startswith "/" (stem +:+ t) = false.
Proof. intros Hs Ht. destruct stem as [|c stem]; [done|]. by rewrite str_app_cons. Qed.

(** X13: for a file name made of a stem, a '.' and an extension of
    exactly three characters (as [.avi], [.mkv], [.mp4], [.mov]), the
    staged name is the stem followed by [.srt]; when the stem does not
    start with '/', the staging path is that name inside the staging
    directory. *)
Theorem X13_three_character_extension stem ext :
  String.length ext = 3 →
  subs_name (stem +:+ "." +:+ ext) = stem +:+ ".srt"
  ∧ (Py.startswith "/" stem = false →
     staging_path (stem +:+ "." +:+ ext) = temp +:+ "/" +:+ stem +:+ ".srt").
Proof.
  intros Hlen.
  destruct ext as [|a [|b [|c [|d ext]]]]; try discriminate Hlen.
  assert (Hn : subs_name (stem +:+ "." +:+ String a (String b (String c EmptyString)))
               = stem +:+ ".srt") by apply subs_name_three_characters.
  split; [exact Hn|]. intros Hrel.
  destruct (staging_path_relative
              (stem +:+ "." +:+ String a (String b (String c EmptyString)))) as [Hp _].
  - rewrite Hn. by apply startswith_slash_app.
  - by rewrite Hp, Hn.
Qed.

Lemma length_substring_0 n s :
  String.length (String.substring 0 n s) = Nat.min n (String.length s).
Proof.
  revert n. induction s as [|c s IH]; intros [|n]; simpl; try reflexivity.
  by rewrite IH.
Qed.

Lemma substring_0_0 s : String.substring 0 0 s = EmptyString.
Proof. by destruct s. Qed.

(** X14: a file name of at most three characters, the empty name
    included, is staged under the bare name [srt]; in general the staged
    name is as long as the file name, and never shorter than three
    characters. *)
Theorem X14_short_names_are_staged_as_srt filename_ :
  String.length (subs_name filename_) = Nat.max 3 (String.length filename_)
  ∧ (String.length filename_ ≤ 3 →
     subs_name filename_ = "srt" ∧ staging_path filename_ = temp +:+ "/" +:+ "srt").
Proof.
  split.
  - unfold subs_name, Py.drop_last3.
    rewrite str_length_app, length_substring_0. simpl. lia.
  - intros Hshort.
    assert (Hn : subs_name filename_ = "srt").
    { unfold subs_name, Py.drop_last3.
      replace (String.length filename_ - 3) with 0 by lia.
      by rewrite substring_0_0. }
    split; [exact Hn|].
    destruct (staging_path_relative filename_) as [Hp _]; [by rewrite Hn|].
    by rewrite Hp, Hn.
Qed.

End DownloadMore.

Lemma X12_witness :
  elsewhere (snd (download_subs (C := Double.found) "/original/1/0" "http://ref"
                    "/media/tv/Show.S01E02.mkv" Double.empty_world))
  = {[ "/media/tv/Show.S01E02.srt" := "1" ]}.
Proof.
  destruct (X12_absolute_name_escapes_staging (C := Double.found)
              "/original/1/0" "http://ref" "/media/tv/Show.S01E02.mkv" "1"
              Double.empty_world) as (_ & _ & H & _);
    [reflexivity | reflexivity | reflexivity | ].
  exact H.
Defined.

Lemma X13_witness : subs_name "Show.S01E02.HDTV-LOL.mkv" = "Show.S01E02.HDTV-LOL.srt".
Proof.
  exact (proj1 (X13_three_character_extension (C := Double.found)
                  "Show.S01E02.HDTV-LOL" "mkv" eq_refl)).
Defined.

(** ** The router, further *)

Section RouterMore.
Context `{C : Collaborators}.

(** X15: whatever the parameter string and whatever happens in the
    flows, [router] signals the end of the listing at most once; it
    does so exactly when it returns, and then as its last call; when an
    exception leaves it, the signal is not given. *)
Theorem X15_end_of_listing_iff_router_returns paramstring (w : World) :
  let run := router paramstring w in
  count_events is_end (new_events w run) ≤ 1
  ∧ (count_events is_end (new_events w run) = 1 ↔ fst run = Return tt)
  ∧ (fst run = Return tt →
     ∃ before, new_events w run = before ++ [EndOfDirectory handle]
               ∧ count_events is_end before = 0).
Proof.
  intros run. subst run. rewrite router_end_count.
  split; [destruct (fst (router paramstring w)); lia|]. split.
  - destruct (fst (router paramstring w)) as [[]|e]; [done|]. split; discriminate.
  - intros Hret. rewrite router_run in *.
    destruct (_ !! "action") as [action|]; [|discriminate].
    destruct (emits_dispatched (dict (parse_qsl paramstring)) action w)
      as (evs & E & F).
    destruct (dispatched _ _ w) as [[[]|e] w1]; [|discriminate]. simpl in E.
    exists evs. split; [|by apply count_end_quiet].
    apply new_events_app. simpl. by rewrite E, app_assoc.
Qed.

(** X16: without an 'action' parameter [router] raises [KeyError]
    before anything is called; with an action other than 'search',
    'manualsearch' and 'download' no flow runs and the end of the listing
    is the only call. *)
Theorem X16_missing_and_unknown_action paramstring (w : World) :
  (dict (parse_qsl paramstring) !! "action" = None →
   router paramstring w = (Raise (KeyError "action"), w))
  ∧ (∀ action, dict (parse_qsl paramstring) !! "action" = Some action →
     action ≠ "search" → action ≠ "manualsearch" → action ≠ "download" →
     router paramstring w = (Return tt, log [EndOfDirectory handle] w)).
Proof.
  split.
  - intros Ha. by rewrite router_run, Ha.
  - intros action Ha H1 H2 H3. rewrite router_run, Ha. unfold dispatched.
    apply String.eqb_neq in H1, H2, H3. by rewrite H1, H2, H3.
Qed.

(** X17: a download request that lacks 'link', 'ref' or 'filename'
    raises [KeyError] for the first of them that is missing, in this
    order, before the download flow starts: nothing is called, the
    staging directory is not wiped and the listing is not ended. *)
Theorem X17_download_with_missing_parameter paramstring (w : World) :
  let params := dict (parse_qsl paramstring) in
  params !! "action" = Some "download" →
  params !! "link" = None ∨ params !! "ref" = None ∨ params !! "filename" = None →
  ∃ key, router paramstring w = (Raise (KeyError key), w)
         ∧ params !! key = None
         ∧ (key = "link"
            ∨ key = "ref" ∧ is_Some (params !! "link")
            ∨ key = "filename" ∧ is_Some (params !! "link") ∧ is_Some (params !! "ref")).
Proof.
  intros params Ha Hmiss. rewrite router_run. fold params. rewrite Ha.
  unfold dispatched. simpl. unfold bind, getitem.
  destruct (params !! "link") as [l|] eqn:Hl.
  2:{ exists "link". by repeat split; [|left]. }
  destruct (params !! "ref") as [r|] eqn:Hr.
  2:{ exists "ref". repeat split; [done|]. right; left. by split; [|eexists]. }
  destruct (params !! "filename") as [f|] eqn:Hf.
  2:{ exists "filename". repeat split; [done|]. right; right. by repeat split; eexists. }
  by destruct Hmiss as [?|[?|?]].
Qed.

(** X18: the link of a presented entry leads back to the download of
    that subtitle: when the host's decoder undoes its encoder on the
    entry's parameters, [router] called with the parameter part of the
    link runs the download flow for the subtitle's link, with the
    episode page as referer and with the file name passed once more
    through [unquote_plus], and then ends the listing. *)
Theorem X18_entry_link_runs_the_download item episode_url filename_ (w : World) :
  let query := download_query episode_url filename_ item in
  parse_qsl (urlencode query) = query →
  subs_url episode_url filename_ item = argv0 +:+ "?" +:+ urlencode query
  ∧ router (urlencode query) w
    = (download_subs (SubtitleItem.link item) episode_url (unquote_plus filename_) ;;
       emit (EndOfDirectory handle)) w.
Proof.
  intros query Hrt. split; [reflexivity|].
  rewrite router_run, Hrt.
  assert (Hd : dict query = <["filename" := filename_]> (<["ref" := episode_url]>
                 (<["link" := SubtitleItem.link item]> (<["action" := "download"]> ∅))))
    by reflexivity.
  rewrite Hd. rewrite lookup_insert_ne, lookup_insert_ne, lookup_insert_ne by done.
  rewrite lookup_insert_eq. unfold dispatched. simpl. unfold bind at 1 2 3.
  unfold getitem.
  rewrite (lookup_insert_ne _ "filename" "link"), (lookup_insert_ne _ "ref" "link") by done.
  rewrite lookup_insert_eq. unfold ret at 1.
  rewrite (lookup_insert_ne _ "filename" "ref") by done.
  rewrite lookup_insert_eq. unfold ret at 1.
  rewrite lookup_insert_eq. unfold ret at 1.
  unfold bind. by destruct (download_subs _ _ _ w) as [[[]|e] w1].
Qed.

End RouterMore.

Lemma X16_witness :
  router (C := Double.found) "action=play&languages=English" Double.empty_world
  = (Return tt, log [EndOfDirectory 1] Double.empty_world).
Proof.
  refine (proj2 (X16_missing_and_unknown_action (C := Double.found)
                   "action=play&languages=English" Double.empty_world)
            "play" _ _ _ _); [vm_compute; reflexivity | discriminate..].
Defined.

Lemma X17_witness :
  ∃ key,
    router (C := Double.found) "action=download&link=a&filename=Show.S01E02.mkv"
      Double.empty_world
    = (Raise (KeyError key), Double.empty_world).
Proof.
  destruct (X17_download_with_missing_parameter (C := Double.found)
              "action=download&link=a&filename=Show.S01E02.mkv" Double.empty_world)
    as (key & Hrun & _);
    [vm_compute; reflexivity | right; left; vm_compute; reflexivity | ].
  exists key. exact Hrun.
Defined.

Lemma X18_witness :
  fst (router (C := Double.found)
         "action=download&link=/original/1/0&ref=http://ref&filename=Show.S01E02.HDTV-LOL.mkv&"
         Double.empty_world)
  = Return tt.
Proof.
  pose proof (proj2 (X18_entry_link_runs_the_download (C := Double.found)
                       Scenario.english "http://ref" "Show.S01E02.HDTV-LOL.mkv"
                       Double.empty_world eq_refl)) as H.
  change (@urlencode Double.found
            (download_query "http://ref" "Show.S01E02.HDTV-LOL.mkv" Scenario.english))
    with "action=download&link=/original/1/0&ref=http://ref&filename=Show.S01E02.HDTV-LOL.mkv&"
    in H.
  rewrite H. reflexivity.
Defined.


(** ** Letter case *)

Section LetterCase.
Context `{C : Collaborators}.


Lemma lower_char_idempotent c : Py.lower_char (Py.lower_char c) = Py.lower_char c.
Proof. destruct c as [[] [] [] [] [] [] [] []]; reflexivity. Qed.

Lemma lower_idempotent s : Py.lower (Py.lower s) = Py.lower s.
Proof.
  induction s as [|c s IH]; [reflexivity|]. simpl.
  by rewrite lower_char_idempotent, IH.
Qed.







End LetterCase.

